(** * Fuzzy livability assessment: the inference engine and its properties

    A shallow embedding of [src/membership_functions.py], [src/rule_base.py]
    and [src/fuzzy_system.py].

    Numbers.  The Python code computes with floats; here every number is an
    exact rational ([Q]), compared by value ([==], [<], [<=]).  Minimum,
    maximum, comparison against a threshold and the order of a sort do not
    round, so they are the same operations on both sides; sums, products
    and quotients are the exact ones.

    Dictionaries.  A dict that the code only looks up or fills key by key is
    a [gmap]; a dict literal whose items are walked in order (a rule's
    antecedents, the batch column mapping) is the list of its items.

    Exceptions.  A call either returns a value or raises ([Py.outcome]). *)

From Stdlib Require Import QArith Qround Qminmax Lqa Sorted.
From stdpp Require Import gmap strings list fin_maps.

Local Open Scope Q_scope.

(** ** Python call outcomes *)

Module Py.

(** [KeyError], [TypeError] and [ValueError] are the exceptions the
    embedded code can raise; [UnknownVariable], [UnknownTerm] and
    [InvalidFeatureValue] are the error names of the specification's
    taxonomy. *)
Inductive exn : Type :=
| KeyError (key : string)
| TypeError
| ValueError
| UnknownVariable
| UnknownTerm
| InvalidFeatureValue.

Inductive outcome (A : Type) : Type :=
| Returns (a : A)
| Raises (e : exn).
Arguments Returns {A} a.
Arguments Raises {A} e.

Definition bind {A B} (c : outcome A) (k : A → outcome B) : outcome B :=
  match c with
  | Returns a => k a
  | Raises e => Raises e
  end.

(** [d[k]] on a dict. *)
Definition getitem {V} (d : gmap string V) (k : string) : outcome V :=
  match d !! k with
  | Some v => Returns v
  | None => Raises (KeyError k)
  end.

(** [min(l)] on a list: the first least element; raises on [[]]. *)
Definition min (l : list Q) : outcome Q :=
  match l with
  | [] => Raises ValueError
  | x :: xs => Returns (fold_left Qmin xs x)
  end.

(** [sorted(l, key=key, reverse=True)]: stable, descending.  Equal keys
    keep the order they had in [l]. *)
Fixpoint insert_desc {A} (key : A → Q) (x : A) (l : list A) : list A :=
  match l with
  | [] => [x]
  | y :: l' =>
      if Qle_bool (key y) (key x) then x :: y :: l'
      else y :: insert_desc key x l'
  end.

Definition sorted_reverse {A} (key : A → Q) (l : list A) : list A :=
  foldr (insert_desc key) [] l.

(** [l[:n]] for an integer [n] (a negative [n] counts from the end). *)
Definition slice_to {A} (l : list A) (n : Z) : list A :=
  if (0 <=? n)%Z then take (Z.to_nat n) l
  else take (length l - Z.to_nat (- n)) l.

End Py.

Import Py.

(** Sequencing of calls: [let* x := c in k] runs [c] and, unless it raised,
    continues with [k]. *)
Notation "'let*' x ':=' c 'in' k" := (Py.bind c (λ x, k))
  (at level 10, x name, c at level 100, k at level 200, only parsing).

Definition Qltb (x y : Q) : bool := negb (Qle_bool y x).

(** ** Array operations (numpy) *)

Module np.

(** [np.arange(start, stop, step)] for a positive step:
    [start + i*step] for [0 <= i < ceil((stop - start)/step)]. *)
Definition arange (start stop step : Q) : list Q :=
  (λ i : nat, start + inject_Z (Z.of_nat i) * step)
    <$> seq 0 (Z.to_nat (Qceiling ((stop - start) / step))).

Definition zeros_like (a : list Q) : list Q := (λ _, 0) <$> a.

(** [np.fmin(level, a)] with a scalar level, [np.fmax(a, b)] elementwise. *)
Definition fmin (level : Q) (a : list Q) : list Q := Qmin level <$> a.
Definition fmax (a b : list Q) : list Q := zip_with Qmax a b.

Definition sum (a : list Q) : Q := foldr Qplus 0 a.

(** [np.mean(a)]: the arithmetic mean; of an empty array it is nan, which
    is no number and is modelled by [None]. *)
Definition mean (a : list Q) : option Q :=
  match a with
  | [] => None
  | _ :: _ => Some (sum a / inject_Z (Z.of_nat (length a)))
  end.

(** [np.linspace(start, stop, num)]: [num] evenly spaced samples from
    [start] to [stop], the last one set to [stop]; a negative [num] is a
    ValueError. *)
Definition linspace (start stop : Q) (num : Z) : outcome (list Q) :=
  if (num <? 0)%Z then Raises ValueError
  else
    let div := (num - 1)%Z in
    let delta := stop - start in
    let y :=
      (λ i : nat,
         if (0 <? div)%Z
         then inject_Z (Z.of_nat i) * (delta / inject_Z div) + start
         else inject_Z (Z.of_nat i) * delta + start)
        <$> seq 0 (Z.to_nat num) in
    Returns (if (1 <? num)%Z then <[(Z.to_nat num - 1)%nat := stop]> y else y).

End np.

(** ** Fuzzy-set operations (the fuzzy-logic library) *)

Module fuzz.

(** Modelled from the spec: the library's trapezoid constructor
    ([fuzz.trapmf]) is not among the sources.  Breakpoints
    [(a,0) (b,1) (c,1) (d,0)]: 1 on [[b,c]] (flat shoulders included),
    0 at and outside [a] and [d], linear ramps in between. *)
Definition trapezoid (a b c d v : Q) : Q :=
  if Qle_bool b v && Qle_bool v c then 1
  else if Qle_bool v a || Qle_bool d v then 0
  else if Qltb v b then (v - a) / (b - a)
  else (d - v) / (d - c).

Definition trapmf (x : list Q) (abcd : Q * Q * Q * Q) : list Q :=
  let '(a, b, c, d) := abcd in trapezoid a b c d <$> x.

(** Modelled from the spec: the library's triangle constructor
    ([fuzz.trimf]) is not among the sources.  A triangle is the trapezoid
    whose two inner breakpoints coincide. *)
Definition trimf (x : list Q) (abc : Q * Q * Q) : list Q :=
  let '(a, b, c) := abc in trapezoid a b b c <$> x.

(** Linear interpolation of the sampled function [(x, xmf)] to the right
    of the sample [(x0, y0)], for a query [v] with [x0 < v]. *)
Fixpoint interp_from (x0 y0 : Q) (x xmf : list Q) (v : Q) : Q :=
  match x, xmf with
  | x1 :: x', y1 :: xmf' =>
      if Qle_bool v x1
      then (y1 - y0) / (x1 - x0) * (v - x0) + y0
      else interp_from x1 y1 x' xmf' v
  | _, _ => y0
  end.

(** Modelled from the spec: the library's [fuzz.interp_membership] is not
    among the sources.  Degree of membership of [v] by linear
    interpolation between the samples; a value left of the first sample
    or right of the last one takes the degree of that edge sample. *)
Definition interp_membership (x xmf : list Q) (v : Q) : Q :=
  match x, xmf with
  | x0 :: x', y0 :: xmf' =>
      if Qle_bool v x0 then y0 else interp_from x0 y0 x' xmf' v
  | _, _ => 0
  end.

(** Modelled from the spec: the library's [fuzz.defuzz(x, mfx, 'centroid')]
    is not among the sources.  The centroid of the sampled envelope:
    [Σ(u_i * mfx_i) / Σ(mfx_i)]. *)
Definition defuzz_centroid (x mfx : list Q) : Q :=
  np.sum (zip_with Qmult x mfx) / np.sum mfx.

End fuzz.

(** ** membership_functions.py *)

Module FuzzyMembershipFunctions.

(** [_define_universes] *)
Definition _define_universes : gmap string (list Q) :=
  <["livability" := np.arange 0 101 1]>
  (<["location_poi" := np.arange 0 100 1]>
  (<["view_greenery" := np.arange 0 2 0.02]>
  (<["view_sky" := np.arange 0 4 0.05]>
  (<["daylight" := np.arange 0 1000 5]>
  (<["noise_lnight" := np.arange 25 75 0.5]>
  (<["noise_lden" := np.arange 30 85 0.5]> ∅)))))).

Definition universes : gmap string (list Q) := _define_universes.

(** [self.universes[variable]] inside [_define_membership_functions]. *)
Definition U (variable : string) : list Q := universes !!! variable.

Definition terms3 (t1 : string) (m1 : list Q) (t2 : string) (m2 : list Q)
    (t3 : string) (m3 : list Q) : gmap string (list Q) :=
  <[t3 := m3]> (<[t2 := m2]> (<[t1 := m1]> ∅)).

(** [_define_membership_functions] *)
Definition _define_membership_functions : gmap string (gmap string (list Q)) :=
  <["livability" :=
      <["excellent" := fuzz.trapmf (U "livability") (65, 80, 100, 100)]>
      (terms3 "poor" (fuzz.trapmf (U "livability") (0, 0, 15, 35))
              "fair" (fuzz.trimf (U "livability") (25, 40, 55))
              "good" (fuzz.trimf (U "livability") (45, 60, 75)))]>
  (<["location_poi" :=
      terms3 "low" (fuzz.trapmf (U "location_poi") (0, 0, 5, 15))
             "medium" (fuzz.trimf (U "location_poi") (10, 25, 40))
             "high" (fuzz.trapmf (U "location_poi") (35, 50, 100, 100))]>
  (<["view_greenery" :=
      terms3 "poor" (fuzz.trapmf (U "view_greenery") (0, 0, 0.1, 0.4))
             "moderate" (fuzz.trimf (U "view_greenery") (0.2, 0.6, 1.0))
             "good" (fuzz.trapmf (U "view_greenery") (0.7, 1.2, 2, 2))]>
  (<["view_sky" :=
      terms3 "poor" (fuzz.trapmf (U "view_sky") (0, 0, 0.5, 1.2))
             "moderate" (fuzz.trimf (U "view_sky") (0.8, 1.5, 2.3))
             "good" (fuzz.trapmf (U "view_sky") (2.0, 2.8, 4, 4))]>
  (<["daylight" :=
      terms3 "low" (fuzz.trapmf (U "daylight") (0, 0, 50, 120))
             "medium" (fuzz.trimf (U "daylight") (80, 200, 350))
             "high" (fuzz.trapmf (U "daylight") (280, 400, 1000, 1000))]>
  (<["noise_lnight" :=
      terms3 "quiet" (fuzz.trapmf (U "noise_lnight") (25, 25, 40, 47))
             "moderate" (fuzz.trimf (U "noise_lnight") (42, 50, 58))
             "noisy" (fuzz.trapmf (U "noise_lnight") (53, 60, 75, 75))]>
  (<["noise_lden" :=
      terms3 "quiet" (fuzz.trapmf (U "noise_lden") (30, 30, 48, 55))
             "moderate" (fuzz.trimf (U "noise_lden") (50, 58, 68))
             "noisy" (fuzz.trapmf (U "noise_lden") (63, 70, 85, 85))]> ∅)))))).

Definition membership_functions : gmap string (gmap string (list Q)) :=
  _define_membership_functions.

(** [get_universe]: [self.universes.get(variable, None)]. *)
Definition get_universe (variable : string) : outcome (option (list Q)) :=
  Returns (universes !! variable).

(** [get_membership_function] *)
Definition get_membership_function (variable term : string)
    : outcome (option (list Q)) :=
  match membership_functions !! variable with
  | Some terms => Returns (terms !! term)
  | None => Returns None
  end.

(** [fuzzify_value]: one interpolated degree per term of the variable;
    the empty dict for a variable without membership functions. *)
Definition fuzzify_value (variable : string) (value : Q)
    : outcome (gmap string Q) :=
  match membership_functions !! variable with
  | None => Returns ∅
  | Some terms =>
      if decide (terms = ∅) then Returns ∅
      else
        let* universe := getitem universes variable in
        Returns ((λ mf, fuzz.interp_membership universe mf value) <$> terms)
  end.

(** [get_all_membership_functions]:
    [self.membership_functions.get(variable, {})]. *)
Definition get_all_membership_functions (variable : string)
    : gmap string (list Q) :=
  default ∅ (membership_functions !! variable).

End FuzzyMembershipFunctions.

(** ** rule_base.py *)

Module FuzzyRuleBase.

Record Rule : Type := {
  id : Z;
  description : string;
  antecedents : list (string * string);
  consequent : gmap string string;
  weight : Q
}.

Definition livability (term : string) : gmap string string :=
  {[ "livability" := term ]}.

(** [_define_rules] *)
Definition _define_rules : list Rule := [
  {| id := 1;
     description := "Quiet environment with high daylight and good views";
     antecedents := [("noise_lden", "quiet"); ("daylight", "high"); ("view_sky", "good")];
     consequent := livability "excellent"; weight := 1.0 |};
  {| id := 2;
     description := "Quiet with good greenery view and high accessibility";
     antecedents := [("noise_lden", "quiet"); ("view_greenery", "good"); ("location_poi", "high")];
     consequent := livability "excellent"; weight := 1.0 |};
  {| id := 3;
     description := "Moderate noise with high daylight and good views";
     antecedents := [("noise_lden", "moderate"); ("daylight", "high"); ("view_sky", "good")];
     consequent := livability "good"; weight := 1.0 |};
  {| id := 4;
     description := "Quiet environment with medium daylight";
     antecedents := [("noise_lden", "quiet"); ("daylight", "medium"); ("view_sky", "moderate")];
     consequent := livability "good"; weight := 1.0 |};
  {| id := 5;
     description := "Moderate noise but good views and accessibility";
     antecedents := [("noise_lden", "moderate"); ("view_sky", "good"); ("location_poi", "high")];
     consequent := livability "good"; weight := 0.9 |};
  {| id := 6;
     description := "Moderate noise with medium daylight";
     antecedents := [("noise_lden", "moderate"); ("daylight", "medium"); ("view_sky", "moderate")];
     consequent := livability "fair"; weight := 1.0 |};
  {| id := 7;
     description := "Quiet but low daylight and poor views";
     antecedents := [("noise_lden", "quiet"); ("daylight", "low"); ("view_sky", "poor")];
     consequent := livability "fair"; weight := 1.0 |};
  {| id := 8;
     description := "Moderate noise with good accessibility";
     antecedents := [("noise_lden", "moderate"); ("location_poi", "high"); ("view_sky", "moderate")];
     consequent := livability "fair"; weight := 0.8 |};
  {| id := 9;
     description := "Noisy environment regardless of other factors";
     antecedents := [("noise_lden", "noisy")];
     consequent := livability "poor"; weight := 1.0 |};
  {| id := 10;
     description := "Low daylight with poor views";
     antecedents := [("daylight", "low"); ("view_sky", "poor"); ("view_greenery", "poor")];
     consequent := livability "poor"; weight := 1.0 |};
  {| id := 11;
     description := "Moderate noise with low daylight and poor views";
     antecedents := [("noise_lden", "moderate"); ("daylight", "low"); ("view_sky", "poor")];
     consequent := livability "poor"; weight := 0.9 |};
  {| id := 12;
     description := "Poor accessibility with low environmental quality";
     antecedents := [("location_poi", "low"); ("daylight", "low"); ("noise_lden", "moderate")];
     consequent := livability "poor"; weight := 0.7 |};
  {| id := 13;
     description := "Excellent daylight compensates for moderate noise";
     antecedents := [("noise_lden", "moderate"); ("daylight", "high"); ("location_poi", "high")];
     consequent := livability "good"; weight := 0.85 |};
  {| id := 14;
     description := "Good greenery view with quiet night environment";
     antecedents := [("noise_lnight", "quiet"); ("view_greenery", "good"); ("daylight", "medium")];
     consequent := livability "good"; weight := 0.9 |};
  {| id := 15;
     description := "Noisy night environment degrades livability";
     antecedents := [("noise_lnight", "noisy")];
     consequent := livability "poor"; weight := 0.95 |}
].

(** The class: its only attribute is the rule list. *)
Record t : Type := { rules : list Rule }.

Definition __init__ : t := {| rules := _define_rules |}.

Definition get_rules (self : t) : list Rule := rules self.

(** [get_rule_by_id]: the first rule with that id, or None. *)
Definition get_rule_by_id (self : t) (rule_id : Z) : option Rule :=
  List.find (λ rule, (id rule =? rule_id)%Z) (rules self).

(** One turn of the loop of [get_rules_by_consequent]. *)
Definition collect_consequent (consequent_term : string)
    (acc : outcome (list Rule)) (rule : Rule) : outcome (list Rule) :=
  let* matching_rules := acc in
  let* term := getitem (consequent rule) "livability" in
  if bool_decide (term = consequent_term)
  then Returns (matching_rules ++ [rule])
  else Returns matching_rules.

(** [get_rules_by_consequent] *)
Definition get_rules_by_consequent (self : t) (consequent_term : string)
    : outcome (list Rule) :=
  foldl (collect_consequent consequent_term) (Returns []) (rules self).

(** The dict returned by [get_rule_statistics]. *)
Record Statistics : Type := {
  total_rules : nat;
  rules_by_consequent : gmap string nat;
  variables_used : gset string;
  average_weight : option Q
}.

(** One turn of the first loop of [get_rule_statistics], on the pair
    [(rules_by_consequent, variables_used)]. *)
Definition count_rule (acc : outcome (gmap string nat * gset string))
    (rule : Rule) : outcome (gmap string nat * gset string) :=
  let* st := acc in
  let '(counts, variables) := st in
  let* term := getitem (consequent rule) "livability" in
  let counts := <[term := (default 0 (counts !! term) + 1)%nat]> counts in
  let variables :=
    foldl (λ variables antecedent, {[antecedent.1]} ∪ variables)
          variables (antecedents rule) in
  Returns (counts, variables).

(** [get_rule_statistics] *)
Definition get_rule_statistics (self : t) : outcome Statistics :=
  let* st := foldl count_rule (Returns (∅, ∅)) (rules self) in
  let '(counts, variables) := st in
  Returns {| total_rules := length (rules self);
             rules_by_consequent := counts;
             variables_used := variables;
             average_weight := np.mean (weight <$> rules self) |}.

End FuzzyRuleBase.

(** ** fuzzy_system.py *)

Module LiveabilityFuzzySystem.

Import FuzzyMembershipFunctions FuzzyRuleBase.

(** The engine object.  [self.mf] is the membership model above, which has
    no parameters; [self.rule_base] is carried by [self]. *)
Record t : Type := { rule_base : FuzzyRuleBase.t }.

Definition __init__ : t := {| rule_base := FuzzyRuleBase.__init__ |}.

(** An entry of [activated_rules]. *)
Record ActivatedRule : Type := {
  rule_id : Z;
  rule_description : string;
  activation : Q
}.

(** The dict returned by [compute_single_dwelling]. *)
Record Result : Type := {
  fli_score : Q;
  linguistic_label : string;
  output_memberships : gmap string Q;
  activated_rules : list ActivatedRule;
  input_fuzzification : gmap string (gmap string Q)
}.

(** One turn of the loop [for var, value in features.items()]. *)
Definition fuzzify_item (var : string) (value : Q)
    (acc : outcome (gmap string (gmap string Q)))
    : outcome (gmap string (gmap string Q)) :=
  let* fuzzified := acc in
  match membership_functions !! var with
  | Some _ =>
      let* degrees := fuzzify_value var value in
      Returns (<[var := degrees]> fuzzified)
  | None => Returns fuzzified
  end.

Definition fuzzify_inputs (features : gmap string Q)
    : outcome (gmap string (gmap string Q)) :=
  map_fold fuzzify_item (Returns ∅) features.

Definition initial_aggregation : gmap string Q :=
  <["excellent" := 0.0]> (<["good" := 0.0]> (<["fair" := 0.0]>
    (<["poor" := 0.0]> ∅))).

(** The inner loop over [rule['antecedents'].items()]: the degrees of the
    antecedents that have an entry in [fuzzified], in order. *)
Definition activation_degrees (fuzzified : gmap string (gmap string Q))
    (rule : Rule) : list Q :=
  omap (λ '(var, term), fuzzified !! var ≫= (.!! term)) (antecedents rule).

(** One turn of the loop [for rule in self.rule_base.get_rules()], on the
    pair [(activated_rules, output_aggregation)]. *)
Definition apply_rule (fuzzified : gmap string (gmap string Q))
    (st : list ActivatedRule * gmap string Q) (rule : Rule)
    : outcome (list ActivatedRule * gmap string Q) :=
  let '(activated_rules, output_aggregation) := st in
  let degrees := activation_degrees fuzzified rule in
  match degrees with
  | [] => Returns st
  | _ :: _ =>
      let* least := Py.min degrees in
      let activation := least * weight rule in
      let* consequent_term := getitem (consequent rule) "livability" in
      let* current := getitem output_aggregation consequent_term in
      let output_aggregation :=
        <[consequent_term := Qmax current activation]> output_aggregation in
      if Qltb 0.01 activation
      then Returns (activated_rules ++
                      [{| rule_id := id rule;
                          rule_description := description rule;
                          activation := activation |}],
                    output_aggregation)
      else Returns (activated_rules, output_aggregation)
  end.

Definition evaluate_rules (fuzzified : gmap string (gmap string Q))
    (rules : list Rule) : outcome (list ActivatedRule * gmap string Q) :=
  foldl (λ acc rule, let* st := acc in apply_rule fuzzified st rule)
        (Returns ([], initial_aggregation)) rules.

(** One turn of the loop [for term, activation in output_memberships.items()].
    A term without a membership function makes [np.fmin] fail. *)
Definition clip_item (term : string) (activation : Q)
    (acc : outcome (list Q)) : outcome (list Q) :=
  let* aggregated := acc in
  if Qltb 0 activation then
    let* mf := get_membership_function "livability" term in
    match mf with
    | Some mf => Returns (np.fmax aggregated (np.fmin activation mf))
    | None => Raises TypeError
    end
  else Returns aggregated.

(** [_defuzzify_centroid].  The branch for a missing output universe is
    never taken with the universes defined above. *)
Definition _defuzzify_centroid (output_memberships : gmap string Q)
    : outcome Q :=
  let* universe := get_universe "livability" in
  match universe with
  | None => Raises TypeError
  | Some universe =>
      let* aggregated :=
        map_fold clip_item (Returns (np.zeros_like universe))
                 output_memberships in
      if Qltb 0 (np.sum aggregated)
      then Returns (fuzz.defuzz_centroid universe aggregated)
      else Returns 50.0
  end.

(** [_get_linguistic_label] *)
Definition _get_linguistic_label (fli_score : Q) : string :=
  if Qle_bool 65 fli_score then "excellent"
  else if Qle_bool 45 fli_score then "good"
  else if Qle_bool 25 fli_score then "fair"
  else "poor".

(** [compute_single_dwelling] *)
Definition compute_single_dwelling (self : t) (features : gmap string Q)
    : outcome Result :=
  let* fuzzified := fuzzify_inputs features in
  let* st := evaluate_rules fuzzified (get_rules (rule_base self)) in
  let '(activated_rules, output_aggregation) := st in
  let* fli_score := _defuzzify_centroid output_aggregation in
  let linguistic_label := _get_linguistic_label fli_score in
  Returns {| fli_score := fli_score;
             linguistic_label := linguistic_label;
             output_memberships := output_aggregation;
             activated_rules := activated_rules;
             input_fuzzification := fuzzified |}.

(** *** Batch scoring *)

(** A data frame: the rows in order, each with its index label and its
    cells by column name. *)
Definition DataFrame : Type := list (Z * gmap string Q).

Definition default_feature_mapping : list (string * string) :=
  [("noise_lden", "noise_lden"); ("noise_lnight", "noise_lnight");
   ("daylight_avg", "daylight"); ("view_sky", "view_sky");
   ("view_greenery", "view_greenery"); ("location_poi_count", "location_poi")].

(** The loop [for dataset_col, fuzzy_var in feature_mapping.items()]. *)
Definition extract_features (feature_mapping : list (string * string))
    (row : gmap string Q) : gmap string Q :=
  foldl (λ features '(dataset_col, fuzzy_var),
           match row !! dataset_col with
           | Some value =>
               let value :=
                 if bool_decide (fuzzy_var = "daylight") && Qltb value 10
                 then value * 1000 else value in
               <[fuzzy_var := value]> features
           | None => features
           end) ∅ feature_mapping.

Record BatchRow : Type := {
  dwelling_id : Z;
  batch_fli_score : Q;
  batch_linguistic_label : string;
  num_activated_rules : nat
}.

(** One turn of the loop [for idx, row in df.iterrows()]. *)
Definition score_row (self : t) (feature_mapping : list (string * string))
    (acc : outcome (list BatchRow)) (record : Z * gmap string Q)
    : outcome (list BatchRow) :=
  let '(idx, row) := record in
  let* results := acc in
  let features := extract_features feature_mapping row in
  let* result := compute_single_dwelling self features in
  Returns (results ++
             [{| dwelling_id := idx;
                 batch_fli_score := fli_score result;
                 batch_linguistic_label := linguistic_label result;
                 num_activated_rules := length (activated_rules result) |}]).

(** [compute_batch].  The result rows are the data frame made of them;
    the summary printed after the loop reads its column [fli_score], which
    the frame made of no row does not have. *)
Definition compute_batch (self : t) (df : DataFrame)
    (feature_mapping : option (list (string * string)))
    : outcome (list BatchRow) :=
  let feature_mapping := default default_feature_mapping feature_mapping in
  let* results := foldl (score_row self feature_mapping) (Returns []) df in
  match results with
  | [] => Raises (KeyError "fli_score")
  | _ :: _ => Returns results
  end.

(** *** Explanation *)

(** The parts of the explanation text, before they are formatted: the
    score and label, the listed input terms, the listed rules and the
    listed output terms.  The input and output listings follow the
    dictionaries' iteration order, which a [gmap] does not record. *)
Record Explanation : Type := {
  explained_score : Q;
  explained_label : string;
  listed_inputs : list (string * Q * list (string * Q));
  listed_rules : list ActivatedRule;
  listed_outputs : list (string * Q)
}.

Definition significant (items : gmap string Q) : list (string * Q) :=
  filter (λ item, Qltb 0.01 item.2 = true) (map_to_list items).

(** [explain_dwelling] *)
Definition explain_dwelling (self : t) (features : gmap string Q)
    (top_n_rules : Z) : outcome Explanation :=
  let* result := compute_single_dwelling self features in
  let sorted_rules :=
    slice_to (sorted_reverse activation (activated_rules result))
             top_n_rules in
  Returns {| explained_score := fli_score result;
             explained_label := linguistic_label result;
             listed_inputs :=
               (λ '(var, value),
                  (var, value,
                   significant (default ∅ (input_fuzzification result !! var))))
                 <$> map_to_list features;
             listed_rules := sorted_rules;
             listed_outputs := significant (output_memberships result) |}.

(** [compute_fuzzy_livability_index]: a fresh engine, then the batch. *)
Definition compute_fuzzy_livability_index (df : DataFrame)
    (feature_mapping : option (list (string * string)))
    : outcome (list BatchRow) :=
  compute_batch __init__ df feature_mapping.

End LiveabilityFuzzySystem.

(** ** web_app.py *)

Module web_app.

Import FuzzyMembershipFunctions FuzzyRuleBase LiveabilityFuzzySystem.

Definition fuzzy_system : LiveabilityFuzzySystem.t :=
  LiveabilityFuzzySystem.__init__.

(** The feature dict built by [compute_single_dwelling_fli]. *)
Definition fli_features
    (noise_lden noise_lnight daylight view_sky view_greenery poi_count : Q)
    : gmap string Q :=
  <["location_poi" := poi_count]> (<["view_greenery" := view_greenery]>
    (<["view_sky" := view_sky]> (<["daylight" := daylight * 1000]>
      (<["noise_lnight" := noise_lnight]> (<["noise_lden" := noise_lden]> ∅))))).

(** [compute_single_dwelling_fli] *)
Definition compute_single_dwelling_fli
    (noise_lden noise_lnight daylight view_sky view_greenery poi_count : Q)
    : outcome Q :=
  let features :=
    fli_features noise_lden noise_lnight daylight view_sky view_greenery
                 poi_count in
  let* result := compute_single_dwelling fuzzy_system features in
  Returns (fli_score result).

(** The label and colour chosen in [assess_dwelling]. *)
Definition assess_label (fli_score : Q) : string * string :=
  if Qle_bool 65 fli_score then ("Excellent", "#10b981")
  else if Qle_bool 45 fli_score then ("Good", "#3b82f6")
  else if Qle_bool 25 fli_score then ("Fair", "#f59e0b")
  else ("Poor", "#ef4444").

(** The [assessments] dict of [assess_dwelling]. *)
Definition feature_assessments
    (noise_lden daylight view_sky view_greenery poi_count : Q)
    : gmap string string :=
  <["location" := if Qltb 80 poi_count then "Excellent"
                  else if Qltb 50 poi_count then "Good" else "Moderate"]>
  (<["view_greenery" := if Qltb 0.6 view_greenery then "Good"
                        else if Qltb 0.3 view_greenery then "Moderate"
                        else "Limited"]>
  (<["view_sky" := if Qltb 0.8 view_sky then "Good"
                   else if Qltb 0.4 view_sky then "Moderate" else "Limited"]>
  (<["daylight" := if Qltb 300 daylight then "High"
                   else if Qltb 100 daylight then "Medium" else "Low"]>
  (<["noise" := if Qltb noise_lden 53 then "Quiet"
                else if Qltb noise_lden 65 then "Moderate" else "Noisy"]> ∅)))).

Definition advice_noise : string :=
  "Consider noise reduction measures (better windows, insulation)".
Definition advice_daylight : string :=
  "Improve natural lighting (larger windows, lighter colors)".
Definition advice_view_sky : string :=
  "Limited sky view - consider higher floors or less obstructed locations".
Definition advice_view_greenery : string :=
  "Add indoor plants or consider locations with more greenery".
Definition advice_excellent : string :=
  "Excellent livability! This dwelling meets high standards.".
Definition advice_improve : string :=
  "Significant improvements needed for better livability".

(** [get_recommendations] *)
Definition get_recommendations (fli_score : Q)
    (assessments : gmap string string) : outcome (list string) :=
  let recommendations := [] in
  let* noise := getitem assessments "noise" in
  let recommendations :=
    if bool_decide (noise = "Noisy")
    then recommendations ++ [advice_noise] else recommendations in
  let* daylight := getitem assessments "daylight" in
  let recommendations :=
    if bool_decide (daylight = "Low")
    then recommendations ++ [advice_daylight] else recommendations in
  let* view_sky := getitem assessments "view_sky" in
  let recommendations :=
    if bool_decide (view_sky = "Limited")
    then recommendations ++ [advice_view_sky] else recommendations in
  let* view_greenery := getitem assessments "view_greenery" in
  let recommendations :=
    if bool_decide (view_greenery = "Limited")
    then recommendations ++ [advice_view_greenery] else recommendations in
  if Qle_bool 65 fli_score
  then Returns (recommendations ++ [advice_excellent])
  else if Qltb fli_score 35
  then Returns (recommendations ++ [advice_improve])
  else Returns recommendations.

(** The attributes of the engine object: the two set by [__init__] and the
    methods of its class. *)
Definition engine_attributes : list string :=
  ["mf"; "rule_base"; "__init__"; "compute_single_dwelling";
   "_defuzzify_centroid"; "_get_linguistic_label"; "compute_batch";
   "explain_dwelling"].

(** What the body of a handler's [try] can end in instead of a value. *)
Inductive failure : Type :=
| IndexError
| AttributeError (name : string)
| Failed (e : exn).

(** [fuzzy_system.<name>(...)]: the attribute is looked up before it is
    called.  [call] stands for what calling an attribute that exists gives
    on the row's cells. *)
Definition call_engine (call : string → gmap string Q → failure + Q)
    (name : string) (cells : gmap string Q) : failure + Q :=
  if bool_decide (name ∈ engine_attributes) then call name cells
  else inl (AttributeError name).

(** [get_dwelling_details], as the status of the response and the score
    it carries: 500 without data; otherwise the first row with the id is
    taken ([.iloc[0]], IndexError when there is none), the engine is called
    and any exception gives 404. *)
Definition get_dwelling_details (call : string → gmap string Q → failure + Q)
    (df : option (list (string * gmap string Q))) (building_id : string)
    : nat * option Q :=
  match df with
  | None => (500%nat, None)
  | Some df =>
      let body :=
        match filter (λ row, row.1 = building_id) df with
        | [] => inl IndexError
        | dwelling :: _ => call_engine call "compute_fli" dwelling.2
        end in
      match body with
      | inr fli_score => (200%nat, Some fli_score)
      | inl _ => (404%nat, None)
      end
  end.

End web_app.

(** ** validation.py *)

Module validation.

Import FuzzyMembershipFunctions FuzzyRuleBase LiveabilityFuzzySystem.

(** A cell of a result row: a number or a string. *)
Inductive cell : Type :=
| Num (q : Q)
| Str (s : string).

(** The row appended for one value. *)
Definition sensitivity_row (variable : string) (value : Q) (result : Result)
    : gmap string cell :=
  <["linguistic_label" := Str (linguistic_label result)]>
    (<["fli_score" := Num (fli_score result)]> {[ variable := Num value ]}).

(** One turn of the loop [for value in values]. *)
Definition vary (fis : LiveabilityFuzzySystem.t)
    (base_features : gmap string Q) (variable : string)
    (acc : outcome (list (gmap string cell))) (value : Q)
    : outcome (list (gmap string cell)) :=
  let* results := acc in
  let features := <[variable := value]> base_features in
  let* result := compute_single_dwelling fis features in
  Returns (results ++ [sensitivity_row variable value result]).

(** [perform_sensitivity_analysis].  The rows are the data frame; the
    summary printed at the end reads the column [fli_score], which an
    empty frame does not have. *)
Definition perform_sensitivity_analysis (fis : LiveabilityFuzzySystem.t)
    (base_features : gmap string Q) (variable : string)
    (value_range : Q * Q) (n_steps : Z)
    : outcome (list (gmap string cell)) :=
  let* values := np.linspace value_range.1 value_range.2 n_steps in
  let* results :=
    foldl (vary fis base_features variable) (Returns []) values in
  match results with
  | [] => Raises (KeyError "fli_score")
  | _ :: _ => Returns results
  end.

End validation.

Import FuzzyMembershipFunctions FuzzyRuleBase LiveabilityFuzzySystem.

(** ** Well-formedness of a rule base, as checks *)

Definition output_terms : list string := ["poor"; "fair"; "good"; "excellent"].

(** The consequent names one of the four output terms and the weight lies
    in (0,1]. *)
Definition valid_rule (rule : Rule) : bool :=
  match consequent rule !! "livability" with
  | Some term => bool_decide (term ∈ output_terms)
  | None => false
  end && Qltb 0 (weight rule) && Qle_bool (weight rule) 1.

Definition valid_rule_base (self : LiveabilityFuzzySystem.t) : bool :=
  forallb valid_rule (get_rules (rule_base self)).

(** The ids grow strictly along the definition order. *)
Fixpoint ascending_ids (rules : list Rule) : bool :=
  match rules with
  | r1 :: (r2 :: _) as rest => (id r1 <? id r2)%Z && ascending_ids rest
  | _ => true
  end.

(** ** What one rule does, read off the loop body *)

(** The rule fires when at least one antecedent has a fuzzified entry. *)
Definition fires (fuzzified : gmap string (gmap string Q)) (rule : Rule) : bool :=
  match activation_degrees fuzzified rule with [] => false | _ => true end.

(** Its firing strength; 0 when it does not fire. *)
Definition firing_strength (fuzzified : gmap string (gmap string Q))
    (rule : Rule) : Q :=
  match activation_degrees fuzzified rule with
  | [] => 0
  | d :: ds => fold_left Qmin ds d * weight rule
  end.

(** The entry the rule leaves in [activated_rules], if any. *)
Definition reported (fuzzified : gmap string (gmap string Q)) (rule : Rule)
    : option ActivatedRule :=
  if fires fuzzified rule && Qltb 0.01 (firing_strength fuzzified rule)
  then Some {| rule_id := id rule;
               rule_description := description rule;
               activation := firing_strength fuzzified rule |}
  else None.

(** The level of an output term after the rules, starting from [level]. *)
Definition raise_level (fuzzified : gmap string (gmap string Q))
    (term : string) (level : Q) (rule : Rule) : Q :=
  if fires fuzzified rule
     && bool_decide (consequent rule !! "livability" = Some term)
  then Qmax level (firing_strength fuzzified rule)
  else level.

Definition aggregated_level (fuzzified : gmap string (gmap string Q))
    (term : string) (rules : list Rule) (level : Q) : Q :=
  foldl (raise_level fuzzified term) level rules.

(** The fuzzification of a feature record, variable by variable. *)
Definition degrees_of (var : string) (value : Q) : option (gmap string Q) :=
  match membership_functions !! var with
  | Some terms => Some ((λ mf, fuzz.interp_membership (U var) mf value) <$> terms)
  | None => None
  end.

Definition fuzzified_of (features : gmap string Q) : gmap string (gmap string Q) :=
  map_imap degrees_of features.


Definition is_minimum (a : Q) (l : list Q) : Prop :=
  (∀ x, x ∈ l → a <= x) ∧ a ∈ l.

Definition unit_interval (q : Q) : Prop := 0 <= q <= 1.

(** The order of the explanation's rule list: stronger first, and among
    equal strengths the lower id first. *)
Definition listed_before (a b : ActivatedRule) : Prop :=
  activation b < activation a
  ∨ (activation a == activation b ∧ (rule_id a < rule_id b)%Z).

(** The samples grow strictly from left to right. *)
Fixpoint increasing (l : list Q) : bool :=
  match l with
  | x :: (y :: _) as rest => Qltb x y && increasing rest
  | _ => true
  end.

(** What holds of every sampled membership function of a variable. *)
Definition sampled_on (u mf : list Q) : Prop :=
  Forall unit_interval mf ∧ length mf = length u.

Definition variable_ok (var : string) (terms : gmap string (list Q)) : Prop :=
  universes !! var = Some (U var) ∧ increasing (U var) = true
  ∧ map_Forall (λ _ mf, sampled_on (U var) mf) terms.

(** Every degree of a fuzzification lies in the unit interval. *)
Definition unit_degrees (fuzzified : gmap string (gmap string Q)) : Prop :=
  ∀ var degrees term d,
    fuzzified !! var = Some degrees → degrees !! term = Some d → unit_interval d.

Definition nonneg (q : Q) : Prop := 0 <= q.

(** A rule is reported exactly when its firing strength exceeds 0.01. *)
Definition entry_of (fuzzified : gmap string (gmap string Q)) (rule : Rule)
    : ActivatedRule :=
  {| rule_id := id rule; rule_description := description rule;
     activation := firing_strength fuzzified rule |}.

Definition significant_rule (fuzzified : gmap string (gmap string Q))
    (rule : Rule) : Prop :=
  Qltb 0.01 (firing_strength fuzzified rule) = true.

#[global] Instance significant_rule_dec fuzzified rule :
  Decision (significant_rule fuzzified rule).
Proof. unfold significant_rule. apply _. Defined.

(** What a batch output row says about its input row. *)
Definition scored_as (self : LiveabilityFuzzySystem.t)
    (mapping : list (string * string)) (record : Z * gmap string Q)
    (out : BatchRow) : Prop :=
  ∃ res,
    compute_single_dwelling self (extract_features mapping record.2)
    = Returns res
    ∧ dwelling_id out = record.1
    ∧ batch_fli_score out = fli_score res
    ∧ batch_linguistic_label out = linguistic_label res
    ∧ num_activated_rules out = length (activated_rules res).

(** ** Records and rule bases used as instances *)

(** The engine over a given rule list. *)
Definition with_rules (rules : list Rule) : LiveabilityFuzzySystem.t :=
  {| rule_base := {| rules := rules |} |}.

(** The record that holds a daylight reading only. *)
Definition daylight_only : gmap string Q := {[ "daylight" := 500 ]}.

(** A rule on daylight and sky view. *)
Definition bright_and_open : Rule :=
  {| id := 1; description := "High daylight and good sky view";
     antecedents := [("daylight", "high"); ("view_sky", "good")];
     consequent := livability "good"; weight := 1.0 |}.

(** Degrees 0.9 and 0.2 under weight 1.0. *)
Definition two_degrees : gmap string (gmap string Q) :=
  <["daylight" := {[ "high" := 0.9 ]}]> {[ "view_sky" := {[ "good" := 0.2 ]} ]}.

(** Two rules with the same consequent, alone in their rule base, and a
    record on which the first fires at 0.3 and the second at 0.6. *)
Definition moderate_by_day : Rule :=
  {| id := 1; description := "Moderate noise by day";
     antecedents := [("noise_lden", "moderate")];
     consequent := livability "good"; weight := 1.0 |}.

Definition moderate_by_night : Rule :=
  {| id := 2; description := "Moderate noise by night";
     antecedents := [("noise_lnight", "moderate")];
     consequent := livability "good"; weight := 1.0 |}.

Definition noise_only : gmap string Q :=
  <["noise_lden" := 52.4]> {[ "noise_lnight" := 46.8 ]}.

(** The example dwelling of [fuzzy_system.py]. *)
Definition example_dwelling : gmap string Q :=
  <["noise_lden" := 52]> (<["noise_lnight" := 43]> (<["daylight" := 350]>
    (<["view_sky" := 2.5]> (<["view_greenery" := 0.8]>
      {[ "location_poi" := 35 ]})))).

(** A record with a daylight reading of 5. *)
Definition dim_record : gmap string Q := {[ "daylight" := 5 ]}.

(** One row with a daylight cell of 0.35 (in the larger unit), scored by
    the default engine under the default column mapping. *)
Definition one_row : DataFrame :=
  [(7%Z, <["daylight_avg" := 0.35]> {[ "noise_lden" := 52 ]})].

(** A rule whose consequent names another variable. *)
Definition comfort_rule : Rule :=
  {| id := 16; description := "Quiet means comfortable";
     antecedents := [("noise_lden", "quiet")];
     consequent := {[ "comfort" := "high" ]}; weight := 1.0 |}.

(** Every antecedent of the rule names a variable and a term that the
    membership model defines. *)
Definition grounded_rule (rule : Rule) : bool :=
  forallb (λ antecedent,
             match membership_functions !! antecedent.1 with
             | Some terms => bool_decide (is_Some (terms !! antecedent.2))
             | None => false
             end) (antecedents rule).

(** The place of a label among the four bands, from worst to best. *)
Definition label_rank (label : string) : nat :=
  if bool_decide (label = "excellent") then 3
  else if bool_decide (label = "good") then 2
  else if bool_decide (label = "fair") then 1
  else 0.

(** A record with a greenery reading only, at which no term that a rule
    uses holds. *)
Definition greenery_only : gmap string Q := {[ "view_greenery" := 0.5 ]}.

(** The value [extract_features] passes on for a cell: daylight below 10
    times 1000, anything else as it is. *)
Definition converted (fuzzy_var : string) (value : Q) : Q :=
  if bool_decide (fuzzy_var = "daylight") && Qltb value 10
  then value * 1000 else value.

(** The result for a record on which nothing fires. *)
Definition default_result (features : gmap string Q) : Result :=
  {| fli_score := 50.0; linguistic_label := "good";
     output_memberships := initial_aggregation;
     activated_rules := [];
     input_fuzzification := fuzzified_of features |}.

(** A row that has none of the columns of the default mapping. *)
Definition unrelated_row : gmap string Q := {[ "floor_area" := 82 ]}.

(** The label with its first letter in upper case. *)
Definition capitalized (label : string) : string :=
  match label with
  | String c rest =>
      let n := Ascii.nat_of_ascii c in
      String (if (97 <=? n)%nat && (n <=? 122)%nat
              then Ascii.ascii_of_nat (n - 32) else c) rest
  | EmptyString => EmptyString
  end.

(** * Lemmas *)

(** Proves [map_Forall P] of a dict literal, entry by entry. *)
Ltac each_entry tac :=
  repeat (apply map_Forall_insert_2; [tac|]); apply map_Forall_empty.

(** ** Rational arithmetic *)

Section Rationals.

Lemma Qltb_lt (x y : Q) : Qltb x y = true ↔ x < y.
Proof.
  unfold Qltb. rewrite negb_true_iff. split.
  - intros Hb. apply Qnot_le_lt. intros Hle.
    apply Qle_bool_iff in Hle. congruence.
  - intros Hlt. destruct (Qle_bool y x) eqn:Hb; [|done].
    apply Qle_bool_iff in Hb. lra.
Qed.

Lemma Qltb_ge (x y : Q) : Qltb x y = false ↔ y <= x.
Proof.
  unfold Qltb. rewrite negb_false_iff. apply Qle_bool_iff.
Qed.

Lemma Qle_bool_false (x y : Q) : Qle_bool x y = false ↔ y < x.
Proof.
  split.
  - intros Hb. apply Qnot_le_lt. intros Hle.
    apply Qle_bool_iff in Hle. congruence.
  - intros Hlt. destruct (Qle_bool x y) eqn:Hb; [|done].
    apply Qle_bool_iff in Hb. lra.
Qed.

Lemma Qmax_cases (x y : Q) :
  (y <= x ∧ Qmax x y = x) ∨ (x < y ∧ Qmax x y = y).
Proof.
  unfold Qmax, GenericMinMax.gmax.
  destruct (x ?= y) eqn:Hc.
  - apply Qeq_alt in Hc. left. split; [lra | done].
  - apply Qlt_alt in Hc. right. done.
  - apply Qgt_alt in Hc. left. split; [lra | done].
Qed.

Lemma Qmin_cases (x y : Q) :
  (x <= y ∧ Qmin x y = x) ∨ (y < x ∧ Qmin x y = y).
Proof.
  unfold Qmin, GenericMinMax.gmin.
  destruct (x ?= y) eqn:Hc.
  - apply Qeq_alt in Hc. left. split; [lra | done].
  - apply Qlt_alt in Hc. left. split; [lra | done].
  - apply Qgt_alt in Hc. right. done.
Qed.

(** A ratio of a part to a positive whole lies in the unit interval. *)
Lemma ratio_unit (n d : Q) : 0 <= n → n <= d → 0 < d → unit_interval (n / d).
Proof.
  intros Hn Hnd Hd. split.
  - apply Qle_shift_div_l; [done | lra].
  - apply Qle_shift_div_r; [done | lra].
Qed.

(** A point between two points of the unit interval is in it. *)
Lemma between_unit (y0 y1 t : Q) :
  unit_interval y0 → unit_interval y1 → unit_interval t →
  unit_interval ((y1 - y0) * t + y0).
Proof. unfold unit_interval. intros [? ?] [? ?] [? ?]. split; nra. Qed.

End Rationals.

(** ** The fuzzy-set operations *)

Section FuzzySets.

Lemma trapezoid_unit (a b c d v : Q) : unit_interval (fuzz.trapezoid a b c d v).
Proof.
  unfold fuzz.trapezoid.
  destruct (Qle_bool b v && Qle_bool v c) eqn:Hplateau.
  { split; lra. }
  destruct (Qle_bool v a || Qle_bool d v) eqn:Hout.
  { split; lra. }
  apply orb_false_iff in Hout as [Ha Hd].
  apply Qle_bool_false in Ha, Hd.
  destruct (Qltb v b) eqn:Hvb.
  - apply Qltb_lt in Hvb. apply ratio_unit; lra.
  - apply Qltb_ge in Hvb.
    apply andb_false_iff in Hplateau as [Hb | Hc].
    + apply Qle_bool_false in Hb. lra.
    + apply Qle_bool_false in Hc. apply ratio_unit; lra.
Qed.

Lemma trapmf_unit (x : list Q) (abcd : Q * Q * Q * Q) :
  Forall unit_interval (fuzz.trapmf x abcd) ∧ length (fuzz.trapmf x abcd) = length x.
Proof.
  destruct abcd as [[[a b] c] d]. unfold fuzz.trapmf. split.
  - apply Forall_fmap, Forall_forall. intros v _. apply trapezoid_unit.
  - apply length_fmap.
Qed.

Lemma trimf_unit (x : list Q) (abc : Q * Q * Q) :
  Forall unit_interval (fuzz.trimf x abc) ∧ length (fuzz.trimf x abc) = length x.
Proof.
  destruct abc as [[a b] c]. unfold fuzz.trimf. split.
  - apply Forall_fmap, Forall_forall. intros v _. apply trapezoid_unit.
  - apply length_fmap.
Qed.

Lemma interp_from_unit (x xmf : list Q) :
  ∀ x0 y0 v, x0 < v → unit_interval y0 → Forall unit_interval xmf →
  unit_interval (fuzz.interp_from x0 y0 x xmf v).
Proof.
  revert xmf. induction x as [|x1 x' IH]; intros xmf x0 y0 v Hv Hy0 Hmf.
  - destruct xmf; exact Hy0.
  - destruct xmf as [|y1 xmf']; [exact Hy0|].
    apply Forall_cons in Hmf as [Hy1 Hmf]. simpl.
    destruct (Qle_bool v x1) eqn:Hseg.
    + apply Qle_bool_iff in Hseg.
      assert (Ht : unit_interval ((v - x0) / (x1 - x0)))
        by (apply ratio_unit; lra).
      pose proof (between_unit y0 y1 _ Hy0 Hy1 Ht) as [Hlo Hhi].
      assert (Heq : (y1 - y0) / (x1 - x0) * (v - x0) + y0
                    == (y1 - y0) * ((v - x0) / (x1 - x0)) + y0)
        by (field; lra).
      split; rewrite Heq; assumption.
    + apply Qle_bool_false in Hseg. apply IH; assumption.
Qed.

Lemma interp_membership_unit (x xmf : list Q) (v : Q) :
  Forall unit_interval xmf → unit_interval (fuzz.interp_membership x xmf v).
Proof.
  intros Hmf. unfold fuzz.interp_membership.
  destruct x as [|x0 x']; [split; lra|].
  destruct xmf as [|y0 xmf']; [split; lra|].
  apply Forall_cons in Hmf as [Hy0 Hmf].
  destruct (Qle_bool v x0) eqn:Hleft; [exact Hy0|].
  apply Qle_bool_false in Hleft. apply interp_from_unit; assumption.
Qed.

(** Left of the first sample the degree is the first sample's. *)
Lemma interp_membership_left (x0 y0 : Q) (x xmf : list Q) (v : Q) :
  v <= x0 → fuzz.interp_membership (x0 :: x) (y0 :: xmf) v = y0.
Proof.
  intros Hv. simpl. apply Qle_bool_iff in Hv. by rewrite Hv.
Qed.

Lemma last_cons_default {A} (l : list A) :
  ∀ a d, List.last (a :: l) d = List.last l a.
Proof.
  induction l as [|b l IH]; intros a d; [done|].
  change (List.last (a :: b :: l) d) with (List.last (b :: l) d).
  by rewrite !IH.
Qed.

Lemma interp_from_right (x xmf : list Q) :
  ∀ x0 y0 v, length xmf = length x → Forall (λ xi, xi < v) x →
  fuzz.interp_from x0 y0 x xmf v = List.last xmf y0.
Proof.
  revert xmf. induction x as [|x1 x' IH]; intros xmf x0 y0 v Hlen Hall.
  - by destruct xmf.
  - destruct xmf as [|y1 xmf']; [done|].
    apply Forall_cons in Hall as [Hx1 Hall]. cbn [fuzz.interp_from].
    apply Qle_bool_false in Hx1. rewrite Hx1.
    rewrite IH; [|simpl in Hlen; lia | done].
    by rewrite last_cons_default.
Qed.

(** Right of every sample the degree is the last sample's. *)
Lemma interp_membership_right (x xmf : list Q) (v : Q) :
  length xmf = length x → Forall (λ xi, xi < v) x →
  fuzz.interp_membership x xmf v = List.last xmf 0.
Proof.
  intros Hlen Hall. unfold fuzz.interp_membership.
  destruct x as [|x0 x']; destruct xmf as [|y0 xmf']; try done.
  apply Forall_cons in Hall as [Hx0 Hall].
  apply Qle_bool_false in Hx0. rewrite Hx0.
  rewrite interp_from_right; [|simpl in Hlen; lia | done].
  by rewrite last_cons_default.
Qed.

End FuzzySets.

(** ** The membership model *)

Section MembershipModel.

Lemma increasing_below_last (l : list Q) :
  ∀ d v, increasing l = true → List.last l d < v → Forall (λ x, x < v) l.
Proof.
  induction l as [|x l IH]; intros d v Hinc Hlast; [constructor|].
  destruct l as [|y l'].
  - repeat constructor. exact Hlast.
  - cbn [increasing] in Hinc. apply andb_true_iff in Hinc as [Hxy Hinc].
    apply Qltb_lt in Hxy.
    rewrite last_cons_default in Hlast.
    assert (Hall : Forall (λ x, x < v) (y :: l')).
    { apply (IH y); [done|]. destruct l'; [done|].
      by rewrite last_cons_default in *. }
    constructor; [|done].
    apply Forall_cons in Hall as [Hy _]. lra.
Qed.

Lemma membership_functions_ok : map_Forall variable_ok membership_functions.
Proof.
  unfold membership_functions, _define_membership_functions.
  each_entry ltac:(
    split; [by vm_compute | split; [by vm_compute|]];
    unfold terms3;
    each_entry ltac:(first [apply trapmf_unit | apply trimf_unit])).
Qed.

Lemma fuzzify_value_spec (variable : string) (value : Q) :
  fuzzify_value variable value = Returns (default ∅ (degrees_of variable value)).
Proof.
  unfold fuzzify_value, degrees_of.
  destruct (membership_functions !! variable) as [terms|] eqn:Hterms; [|done].
  destruct (decide (terms = ∅)) as [->|_].
  { by rewrite fmap_empty. }
  destruct (membership_functions_ok _ _ Hterms) as (Hu & _ & _).
  unfold getitem. by rewrite Hu.
Qed.

Lemma fuzzify_inputs_spec (features : gmap string Q) :
  fuzzify_inputs features = Returns (fuzzified_of features).
Proof.
  unfold fuzzify_inputs, fuzzified_of.
  apply (map_fold_weak_ind (λ r m, r = Returns (map_imap degrees_of m))).
  { by rewrite map_imap_empty. }
  intros var value m r Hfresh ->. unfold fuzzify_item. cbn [Py.bind].
  rewrite map_imap_insert, fuzzify_value_spec. unfold degrees_of.
  destruct (membership_functions !! var) as [terms|]; cbn [Py.bind default].
  - done.
  - by rewrite delete_id by (by rewrite map_lookup_imap, Hfresh).
Qed.

Lemma fuzzified_of_lookup (features : gmap string Q) (var : string) :
  fuzzified_of features !! var =
    match features !! var with
    | Some value => degrees_of var value
    | None => None
    end.
Proof.
  unfold fuzzified_of. rewrite map_lookup_imap. by destruct (features !! var).
Qed.

Lemma fuzzified_of_unit (features : gmap string Q) (var term : string)
    (degrees : gmap string Q) (d : Q) :
  fuzzified_of features !! var = Some degrees → degrees !! term = Some d →
  unit_interval d.
Proof.
  rewrite fuzzified_of_lookup. destruct (features !! var) as [value|]; [|done].
  unfold degrees_of.
  destruct (membership_functions !! var) as [terms|] eqn:Hterms; [|done].
  intros [= <-]. rewrite lookup_fmap.
  destruct (terms !! term) as [mf|] eqn:Hmf; [|done]. intros [= <-].
  destruct (membership_functions_ok _ _ Hterms) as (_ & _ & Hall).
  destruct (Hall _ _ Hmf) as [Hunit _].
  by apply interp_membership_unit.
Qed.

End MembershipModel.

(** ** Rule evaluation *)

Section RuleEvaluation.

Variable fuzzified : gmap string (gmap string Q).

Lemma fold_Qmin_minimum (ds : list Q) :
  ∀ d, is_minimum (fold_left Qmin ds d) (d :: ds).
Proof.
  induction ds as [|e ds IH]; intros d.
  - split; [|by left]. intros x ->%list_elem_of_singleton. cbn. lra.
  - destruct (IH (Qmin d e)) as [Hle Hin]. cbn [fold_left]. split.
    + intros x Hx.
      assert (Hm : fold_left Qmin ds (Qmin d e) <= Qmin d e) by (apply Hle; left).
      destruct (Qmin_cases d e) as [[Hde Heq] | [Hde Heq]]; rewrite Heq in *.
      * apply elem_of_cons in Hx as [-> | Hx]; [done|].
        apply elem_of_cons in Hx as [-> | Hx]; [lra|].
        apply Hle. by right.
      * apply elem_of_cons in Hx as [-> | Hx]; [lra|].
        apply elem_of_cons in Hx as [-> | Hx]; [done|].
        apply Hle. by right.
    + apply elem_of_cons in Hin as [Heq | Hin].
      * rewrite Heq.
        destruct (Qmin_cases d e) as [[_ ->] | [_ ->]]; [left | right; left].
      * right. by right.
Qed.

Lemma activation_degrees_elem (rule : Rule) (d : Q) :
  d ∈ activation_degrees fuzzified rule ↔
  ∃ var term degrees, (var, term) ∈ antecedents rule
    ∧ fuzzified !! var = Some degrees ∧ degrees !! term = Some d.
Proof.
  unfold activation_degrees. rewrite list_elem_of_omap. split.
  - intros ([var term] & Hin & Hd). exists var, term.
    destruct (fuzzified !! var) as [degrees|]; [|done]. by exists degrees.
  - intros (var & term & degrees & Hin & Hfz & Hd).
    exists (var, term). split; [done|]. by rewrite Hfz.
Qed.

Lemma fires_iff (rule : Rule) :
  fires fuzzified rule = true ↔
  ∃ var term degrees d, (var, term) ∈ antecedents rule
    ∧ fuzzified !! var = Some degrees ∧ degrees !! term = Some d.
Proof.
  unfold fires. split.
  - destruct (activation_degrees fuzzified rule) as [|d ds] eqn:Hds; [done|].
    intros _. assert (Hd : d ∈ activation_degrees fuzzified rule)
      by (rewrite Hds; left).
    apply activation_degrees_elem in Hd as (var & term & degrees & ?).
    by exists var, term, degrees, d.
  - intros (var & term & degrees & d & H).
    assert (Hd : d ∈ activation_degrees fuzzified rule)
      by (apply activation_degrees_elem; eauto).
    by destruct (activation_degrees fuzzified rule);
      [apply elem_of_nil in Hd|].
Qed.

Lemma firing_strength_unit (rule : Rule) :
  unit_degrees fuzzified → 0 <= weight rule → weight rule <= 1 →
  unit_interval (firing_strength fuzzified rule).
Proof.
  intros Hfz Hw0 Hw1. unfold firing_strength.
  destruct (activation_degrees fuzzified rule) as [|d ds] eqn:Hds.
  { split; lra. }
  destruct (fold_Qmin_minimum ds d) as [_ Hin]. rewrite <- Hds in Hin.
  apply activation_degrees_elem in Hin as (var & term & degrees & _ & H1 & H2).
  destruct (Hfz _ _ _ _ H1 H2) as [Hlo Hhi]. split; nra.
Qed.

(** The loop body, for a rule whose consequent is a key of the aggregation. *)
Lemma apply_rule_spec (acts : list ActivatedRule) (agg : gmap string Q)
    (rule : Rule) (term : string) (current : Q) :
  consequent rule !! "livability" = Some term → agg !! term = Some current →
  apply_rule fuzzified (acts, agg) rule =
    Returns (acts ++ option_list (reported fuzzified rule),
             if fires fuzzified rule
             then <[term := Qmax current (firing_strength fuzzified rule)]> agg
             else agg).
Proof.
  intros Hterm Hcur. unfold apply_rule, reported, fires, firing_strength.
  destruct (activation_degrees fuzzified rule) as [|d ds].
  { by rewrite app_nil_r. }
  unfold getitem. rewrite Hterm. cbn [Py.min Py.bind]. rewrite Hcur.
  cbn [Py.bind andb].
  destruct (Qltb 0.01 (fold_left Qmin ds d * weight rule));
    [done | by rewrite app_nil_r].
Qed.

(** The whole loop, from any state whose aggregation has the four keys. *)
Lemma evaluate_rules_from (rules : list Rule) :
  ∀ acts agg,
    forallb valid_rule rules = true →
    (∀ term, term ∈ output_terms → is_Some (agg !! term)) →
    ∃ agg',
      foldl (λ acc rule, let* st := acc in apply_rule fuzzified st rule)
            (Returns (acts, agg)) rules
      = Returns (acts ++ omap (reported fuzzified) rules, agg')
      ∧ ∀ term, agg' !! term
                = aggregated_level fuzzified term rules <$> agg !! term.
Proof.
  induction rules as [|rule rules IH]; intros acts agg Hvalid Hkeys.
  { exists agg. split; [by rewrite app_nil_r|].
    intros term. by destruct (agg !! term). }
  cbn [forallb] in Hvalid. apply andb_true_iff in Hvalid as [Hrule Hvalid].
  unfold valid_rule in Hrule.
  apply andb_true_iff in Hrule as [Hrule _].
  apply andb_true_iff in Hrule as [Hrule _].
  destruct (consequent rule !! "livability") as [term|] eqn:Hterm; [|done].
  apply bool_decide_eq_true in Hrule.
  destruct (Hkeys term Hrule) as [current Hcur].
  cbn [foldl Py.bind]. rewrite (apply_rule_spec _ _ _ _ _ Hterm Hcur).
  set (agg1 := if fires fuzzified rule
               then <[term := Qmax current (firing_strength fuzzified rule)]> agg
               else agg).
  assert (Hstep : ∀ t, agg1 !! t = (λ level, raise_level fuzzified t level rule)
                                     <$> agg !! t).
  { intros t. unfold agg1, raise_level.
    destruct (fires fuzzified rule); cbn [andb].
    - destruct (decide (term = t)) as [<-|Hne].
      + rewrite lookup_insert_eq, Hcur, Hterm.
        by rewrite bool_decide_eq_true_2.
      + rewrite lookup_insert_ne by done.
        rewrite bool_decide_eq_false_2 by congruence.
        by destruct (agg !! t).
    - by destruct (agg !! t). }
  destruct (IH (acts ++ option_list (reported fuzzified rule)) agg1 Hvalid)
    as (agg' & Hrun & Hagg).
  { intros t Ht. rewrite Hstep. destruct (Hkeys t Ht) as [c ->]. by eexists. }
  exists agg'. split.
  - rewrite Hrun. f_equal. f_equal. rewrite <- app_assoc. f_equal.
    cbn [omap list_omap]. by destruct (reported fuzzified rule).
  - intros t. rewrite Hagg, Hstep. by destruct (agg !! t).
Qed.

Lemma aggregated_level_cons (term : string) (rule : Rule)
    (rules : list Rule) (level : Q) :
  aggregated_level fuzzified term (rule :: rules) level
  = aggregated_level fuzzified term rules
      (raise_level fuzzified term level rule).
Proof. reflexivity. Qed.



Lemma aggregated_level_attained (term : string) (rules : list Rule) :
  ∀ level,
    aggregated_level fuzzified term rules level = level
    ∨ ∃ rule, rule ∈ rules ∧ fires fuzzified rule = true
        ∧ consequent rule !! "livability" = Some term
        ∧ aggregated_level fuzzified term rules level
          = firing_strength fuzzified rule.
Proof.
  induction rules as [|r rules IH]; intros level; [by left|].
  rewrite aggregated_level_cons.
  destruct (IH (raise_level fuzzified term level r))
    as [Hsame | (rule & Hin & Hf & Ht & Heq)].
  - rewrite Hsame. unfold raise_level.
    destruct (fires fuzzified r) eqn:Hf; cbn [andb]; [|by left].
    destruct (bool_decide _) eqn:Ht; [|by left].
    apply bool_decide_eq_true in Ht.
    destruct (Qmax_cases level (firing_strength fuzzified r))
      as [[_ ->] | [_ ->]]; [by left|].
    right. exists r. split; [left|done].
  - right. exists rule. split; [by right | done].
Qed.

End RuleEvaluation.

(** ** Defuzzification *)

Section Defuzzification.

Lemma sum_zeros_like (a : list Q) : np.sum (np.zeros_like a) == 0.
Proof.
  induction a as [|x a IH]; [reflexivity|].
  cbn in *. rewrite IH. lra.
Qed.

Lemma fmax_nonneg (a : list Q) :
  ∀ b, Forall nonneg a → length b = length a →
    Forall nonneg (np.fmax a b) ∧ length (np.fmax a b) = length a.
Proof.
  unfold np.fmax.
  induction a as [|x a IH]; intros b Ha Hlen; [by split|].
  destruct b as [|y b]; [done|].
  apply Forall_cons in Ha as [Hx Ha].
  destruct (IH b Ha) as [Hall Hl]; [simpl in Hlen; lia|].
  cbn [zip_with length]. split; [|by rewrite Hl].
  constructor; [|exact Hall].
  unfold nonneg in *.
  destruct (Qmax_cases x y) as [[? ->] | [? ->]]; lra.
Qed.

(** A weighted sum lies between the least and the greatest position times
    the total weight. *)
Lemma weighted_sum_bounds (lo hi : Q) (x : list Q) :
  ∀ w, Forall (λ u, lo <= u <= hi) x → Forall nonneg w →
    length w = length x →
    lo * np.sum w <= np.sum (zip_with Qmult x w) <= hi * np.sum w.
Proof.
  induction x as [|u x IH]; intros w Hx Hw Hlen.
  { destruct w; [|done]. cbn. split; lra. }
  destruct w as [|e w]; [done|].
  apply Forall_cons in Hx as [[Hlo Hhi] Hx].
  apply Forall_cons in Hw as [He Hw].
  destruct (IH w Hx Hw) as [IHlo IHhi]; [simpl in Hlen; lia|].
  unfold nonneg in He.
  change (np.sum (e :: w)) with (e + np.sum w).
  change (np.sum (zip_with Qmult (u :: x) (e :: w)))
    with (u * e + np.sum (zip_with Qmult x w)).
  split; nra.
Qed.

Lemma centroid_bounds (lo hi : Q) (x mfx : list Q) :
  Forall (λ u, lo <= u <= hi) x → Forall nonneg mfx →
  length mfx = length x → 0 < np.sum mfx →
  lo <= fuzz.defuzz_centroid x mfx <= hi.
Proof.
  intros Hx Hw Hlen Hpos.
  destruct (weighted_sum_bounds lo hi x mfx Hx Hw Hlen) as [Hlo Hhi].
  unfold fuzz.defuzz_centroid. split.
  - apply Qle_shift_div_l; [done | lra].
  - apply Qle_shift_div_r; [done | lra].
Qed.

Lemma livability_universe :
  get_universe "livability" = Returns (Some (U "livability")).
Proof. by vm_compute. Qed.

Lemma range_check (lo hi : Q) (l : list Q) :
  forallb (λ u, Qle_bool lo u && Qle_bool u hi) l = true →
  Forall (λ u, lo <= u <= hi) l.
Proof.
  rewrite forallb_forall, Forall_forall. intros H u Hu.
  apply list_elem_of_In, H, andb_true_iff in Hu as [H1 H2].
  by apply Qle_bool_iff in H1, H2.
Qed.

Lemma livability_universe_range :
  Forall (λ u, 0 <= u <= 100) (U "livability").
Proof. apply range_check. by vm_compute. Qed.

Lemma livability_terms :
  ∃ terms, membership_functions !! "livability" = Some terms
    ∧ ∀ term, term ∈ output_terms → is_Some (terms !! term).
Proof.
  eexists. split; [apply lookup_insert_eq|].
  intros term Hin. unfold output_terms in Hin. unfold terms3.
  repeat (apply elem_of_cons in Hin as [-> | Hin]);
    [| | | | by apply elem_of_nil in Hin];
    rewrite ?lookup_insert_eq, ?lookup_insert_ne by done; by eexists.
Qed.

Lemma livability_membership_function (term : string) :
  term ∈ output_terms →
  ∃ mf, get_membership_function "livability" term = Returns (Some mf)
    ∧ sampled_on (U "livability") mf.
Proof.
  intros Hin. destruct livability_terms as (terms & Hterms & Hall).
  destruct (Hall term Hin) as [mf Hmf]. exists mf. split.
  - unfold get_membership_function. by rewrite Hterms, Hmf.
  - destruct (membership_functions_ok _ _ Hterms) as (_ & _ & Hok).
    exact (Hok _ _ Hmf).
Qed.

(** The envelope built by the loop over the output terms. *)
Lemma clip_fold_spec (output_memberships : gmap string Q) :
  (∀ term a, output_memberships !! term = Some a → term ∈ output_terms) →
  ∃ aggregated,
    map_fold clip_item (Returns (np.zeros_like (U "livability")))
             output_memberships = Returns aggregated
    ∧ Forall nonneg aggregated
    ∧ length aggregated = length (U "livability")
    ∧ ((∀ term a, output_memberships !! term = Some a → a <= 0) →
       aggregated = np.zeros_like (U "livability")).
Proof.
  apply (map_fold_weak_ind (λ r m,
    (∀ term a, m !! term = Some a → term ∈ output_terms) →
    ∃ aggregated, r = Returns aggregated
      ∧ Forall nonneg aggregated
      ∧ length aggregated = length (U "livability")
      ∧ ((∀ term a, m !! term = Some a → a <= 0) →
         aggregated = np.zeros_like (U "livability")))).
  { intros _. eexists. split; [done|]. split; [|split; [|done]].
    - apply Forall_fmap, Forall_forall. intros ? _. unfold nonneg. cbn. lra.
    - apply length_fmap. }
  intros term a m r Hfresh IH Hkeys.
  assert (Hsub : ∀ t b, m !! t = Some b → <[term := a]> m !! t = Some b).
  { intros t b Ht. rewrite lookup_insert_ne; [done|]. congruence. }
  destruct IH as (env & -> & Hnonneg & Hlen & Hzero).
  { intros t b Ht. eapply Hkeys, Hsub, Ht. }
  unfold clip_item. cbn [Py.bind].
  destruct (Qltb 0 a) eqn:Hpos.
  - apply Qltb_lt in Hpos.
    destruct (livability_membership_function term) as (mf & -> & Hmf & Hmflen).
    { eapply Hkeys, lookup_insert_eq. }
    cbn [Py.bind].
    destruct (fmax_nonneg env (np.fmin a mf) Hnonneg) as [Hall Hl].
    { unfold np.fmin. rewrite length_fmap. congruence. }
    eexists. split; [done|]. split; [done|]. split; [congruence|].
    intros Hle. specialize (Hle term a (lookup_insert_eq _ _ _)). lra.
  - exists env. split; [done|]. split; [done|]. split; [done|].
    intros Hle. apply Hzero. intros t b Ht. eapply Hle, Hsub, Ht.
Qed.

Lemma _defuzzify_centroid_spec (output_memberships : gmap string Q) :
  (∀ term a, output_memberships !! term = Some a → term ∈ output_terms) →
  ∃ score, _defuzzify_centroid output_memberships = Returns score
    ∧ 0 <= score <= 100
    ∧ ((∀ term a, output_memberships !! term = Some a → a <= 0) →
       score = 50.0).
Proof.
  intros Hkeys. unfold _defuzzify_centroid.
  rewrite livability_universe. cbn [Py.bind].
  destruct (clip_fold_spec _ Hkeys) as (env & -> & Hnonneg & Hlen & Hzero).
  cbn [Py.bind]. destruct (Qltb 0 (np.sum env)) eqn:Hsum.
  - apply Qltb_lt in Hsum. eexists. split; [done|]. split.
    + apply centroid_bounds; auto using livability_universe_range.
    + intros Hle. rewrite (Hzero Hle), sum_zeros_like in Hsum. lra.
  - eexists. split; [done|]. split; [split; cbn; lra | done].
Qed.

End Defuzzification.

(** ** The scoring pipeline *)

Section Pipeline.

Lemma initial_aggregation_lookup (term : string) (a : Q) :
  initial_aggregation !! term = Some a → term ∈ output_terms ∧ a = 0.0.
Proof.
  unfold initial_aggregation, output_terms. intros Hlook.
  repeat (apply lookup_insert_Some in Hlook as [[<- <-] | [_ Hlook]];
          [split; [|done]; by repeat constructor|]).
  by rewrite lookup_empty in Hlook.
Qed.

Lemma initial_aggregation_keys (term : string) :
  term ∈ output_terms → initial_aggregation !! term = Some 0.0.
Proof.
  unfold initial_aggregation, output_terms. intros Hin.
  repeat (apply elem_of_cons in Hin as [-> | Hin]);
    [| | | | by apply elem_of_nil in Hin]; by vm_compute.
Qed.

(** The stages of [compute_single_dwelling] and what each contributes to
    the result. *)
Lemma compute_single_dwelling_spec (self : LiveabilityFuzzySystem.t)
    (features : gmap string Q) :
  valid_rule_base self = true →
  ∃ res, compute_single_dwelling self features = Returns res
    ∧ input_fuzzification res = fuzzified_of features
    ∧ activated_rules res
      = omap (reported (fuzzified_of features)) (get_rules (rule_base self))
    ∧ (∀ term, output_memberships res !! term
               = aggregated_level (fuzzified_of features) term
                   (get_rules (rule_base self)) <$> initial_aggregation !! term)
    ∧ 0 <= fli_score res <= 100
    ∧ linguistic_label res = _get_linguistic_label (fli_score res).
Proof.
  intros Hvalid. unfold compute_single_dwelling.
  rewrite fuzzify_inputs_spec. cbn [Py.bind]. unfold evaluate_rules.
  destruct (evaluate_rules_from (fuzzified_of features)
              (get_rules (rule_base self)) [] initial_aggregation Hvalid)
    as (agg & -> & Hagg).
  { intros term Hin. rewrite initial_aggregation_keys by done. by eexists. }
  cbn [Py.bind app].
  destruct (_defuzzify_centroid_spec agg) as (score & -> & Hrange & _).
  { intros term a. rewrite Hagg.
    destruct (initial_aggregation !! term) as [a0|] eqn:Hinit; [|done].
    intros _. by apply initial_aggregation_lookup in Hinit as [? _]. }
  cbn [Py.bind]. eexists. split; [reflexivity|]. cbn. done.
Qed.


End Pipeline.

(** * Properties *)

(** ** C1: when a rule fires *)




(** ** C2: the default score *)

(** C2, as stated, fails: on the record [{daylight: 500}] every rule lacks
    one of its antecedent variables, and yet the score is not 50 and the
    label is not "good". *)
Lemma partial_record_not_default :
  Forall (λ rule, Exists (λ antecedent, daylight_only !! antecedent.1 = None)
                         (antecedents rule))
         (get_rules (rule_base __init__))
  ∧ ∃ res, compute_single_dwelling __init__ daylight_only = Returns res
      ∧ ¬ fli_score res == 50.0
      ∧ linguistic_label res ≠ "good".
Proof.
  split.
  - repeat (apply Forall_cons; split;
              [first [apply Exists_cons_hd; by vm_compute
                     | apply Exists_cons_tl, Exists_cons_hd; by vm_compute]|]).
    by apply Forall_nil.
  - eexists. split; [by vm_compute|]. split; by vm_compute.
Qed.

(** C2, amended: a record that holds none of the antecedent variables of any
    rule (the empty record in particular) is scored exactly 50.0 and
    labelled "good", no rule being reported and no output level raised; the
    call returns. *)
Theorem default_without_any_antecedent (self : LiveabilityFuzzySystem.t)
    (features : gmap string Q) :
  (∀ rule var term, rule ∈ get_rules (rule_base self) →
     (var, term) ∈ antecedents rule → features !! var = None) →
  compute_single_dwelling self features
  = Returns {| fli_score := 50.0; linguistic_label := "good";
               output_memberships := initial_aggregation;
               activated_rules := [];
               input_fuzzification := fuzzified_of features |}.
Proof.
  intros Habsent. unfold compute_single_dwelling.
  rewrite fuzzify_inputs_spec. cbn [Py.bind].
  assert (Hrules : evaluate_rules (fuzzified_of features)
                     (get_rules (rule_base self))
                   = Returns ([], initial_aggregation)).
  { unfold evaluate_rules. generalize (@nil ActivatedRule) initial_aggregation.
    induction (get_rules (rule_base self)) as [|rule rules IH];
      intros acts agg; [done|].
    cbn [foldl Py.bind].
    assert (Hnone : activation_degrees (fuzzified_of features) rule = []).
    { destruct (activation_degrees _ rule) as [|d ds] eqn:Hds; [done|].
      assert (Hd : d ∈ activation_degrees (fuzzified_of features) rule)
        by (rewrite Hds; left).
      apply activation_degrees_elem in Hd as (var & term & degrees & Hin & Hfz & _).
      rewrite fuzzified_of_lookup, (Habsent rule var term) in Hfz;
        [done | left | done]. }
    unfold apply_rule at 2. rewrite Hnone. apply IH.
    intros r var term Hr. apply Habsent. by right. }
  rewrite Hrules. cbn [Py.bind].
  destruct (_defuzzify_centroid_spec initial_aggregation)
    as (score & -> & _ & Hdefault).
  { intros term a H. by apply initial_aggregation_lookup in H as [? _]. }
  rewrite Hdefault; [done|].
  intros term a H. apply initial_aggregation_lookup in H as [_ ->]. done.
Qed.

Lemma default_without_any_antecedent_witness :
  compute_single_dwelling __init__ ∅
  = Returns {| fli_score := 50.0; linguistic_label := "good";
               output_memberships := initial_aggregation;
               activated_rules := [];
               input_fuzzification := fuzzified_of ∅ |}.
Proof.
  apply default_without_any_antecedent.
  intros rule var term _ _. apply lookup_empty.
Defined.

(** ** C3: lookups of undefined names *)

(** C3, as stated, fails: "altitude" is not a variable of the model, and
    none of the three lookups raises for it. *)
Lemma unknown_variable_not_an_error :
  membership_functions !! "altitude" = None
  ∧ universes !! "altitude" = None
  ∧ get_universe "altitude" ≠ Raises UnknownVariable
  ∧ fuzzify_value "altitude" 1 ≠ Raises UnknownVariable
  ∧ get_membership_function "altitude" "high" ≠ Raises UnknownVariable
  ∧ get_membership_function "altitude" "high" ≠ Raises UnknownTerm
  ∧ get_membership_function "daylight" "blinding" ≠ Raises UnknownTerm.
Proof. repeat split; by vm_compute. Qed.

Lemma universes_defined (variable : string) :
  universes !! variable = None ↔ membership_functions !! variable = None.
Proof.
  rewrite <- !not_elem_of_dom.
  assert (Hdom : dom universes = dom membership_functions); [|by rewrite Hdom].
  unfold universes, _define_universes, membership_functions,
    _define_membership_functions.
  by rewrite !dom_insert_L, !dom_empty_L.
Qed.

(** C3, amended: for a variable the model does not define, [get_universe]
    and [get_membership_function] return None and [fuzzify_value] returns
    the empty mapping; for a defined variable and a term it does not have,
    [get_membership_function] returns None.  None of them raises. *)
Theorem lookups_of_undefined_names (variable term : string) (value : Q) :
  (membership_functions !! variable = None →
     get_universe variable = Returns None
     ∧ fuzzify_value variable value = Returns ∅
     ∧ get_membership_function variable term = Returns None)
  ∧ (∀ terms, membership_functions !! variable = Some terms →
       terms !! term = None →
       get_membership_function variable term = Returns None).
Proof.
  split.
  - intros Hnone. unfold get_universe, fuzzify_value, get_membership_function.
    rewrite Hnone. by rewrite (proj2 (universes_defined variable) Hnone).
  - intros terms Hterms Hterm. unfold get_membership_function.
    by rewrite Hterms, Hterm.
Qed.

Lemma lookups_of_undefined_names_witness :
  (get_universe "altitude" = Returns None
   ∧ fuzzify_value "altitude" 1 = Returns ∅
   ∧ get_membership_function "altitude" "high" = Returns None)
  ∧ get_membership_function "livability" "superb" = Returns None.
Proof.
  split.
  - apply (proj1 (lookups_of_undefined_names "altitude" "high" 1)).
    vm_compute. reflexivity.
  - eapply (proj2 (lookups_of_undefined_names "livability" "superb" 1)).
    + apply lookup_insert_eq.
    + vm_compute. reflexivity.
Defined.

(** ** C4: fuzzy AND is the minimum *)

(** C4: when every antecedent of a rule has a fuzzified entry, the rule's
    firing strength is the least of all its antecedent degrees times its
    weight, and this is the activation the loop body works with: it raises
    the consequent's level to the maximum of the current level and that
    value, and reports the rule when the value exceeds 0.01. *)
Theorem and_is_min (fuzzified : gmap string (gmap string Q)) (rule : Rule) :
  antecedents rule ≠ [] →
  (∀ var term, (var, term) ∈ antecedents rule →
     ∃ degrees d, fuzzified !! var = Some degrees ∧ degrees !! term = Some d) →
  ∃ degrees least,
    Forall2 (λ antecedent d,
               ∃ ds, fuzzified !! antecedent.1 = Some ds
                     ∧ ds !! antecedent.2 = Some d)
            (antecedents rule) degrees
    ∧ is_minimum least degrees
    ∧ firing_strength fuzzified rule = least * weight rule
    ∧ ∀ acts agg term current,
        consequent rule !! "livability" = Some term →
        agg !! term = Some current →
        apply_rule fuzzified (acts, agg) rule
        = Returns (acts ++ (if Qltb 0.01 (least * weight rule)
                            then [{| rule_id := id rule;
                                     rule_description := description rule;
                                     activation := least * weight rule |}]
                            else []),
                   <[term := Qmax current (least * weight rule)]> agg).
Proof.
  intros Hnonempty Hall.
  assert (Hdegrees : Forall2 (λ antecedent d,
                       ∃ ds, fuzzified !! antecedent.1 = Some ds
                             ∧ ds !! antecedent.2 = Some d)
                     (antecedents rule) (activation_degrees fuzzified rule)).
  { unfold activation_degrees. clear Hnonempty. revert Hall.
    induction (antecedents rule) as [|[var term] rest IH]; intros Hall;
      [constructor|].
    destruct (Hall var term) as (ds & d & Hds & Hd); [left|].
    cbn [omap list_omap]. rewrite Hds. cbn. rewrite Hd.
    constructor; [by exists ds|].
    apply IH. intros v t Hin. apply Hall. by right. }
  destruct (activation_degrees fuzzified rule) as [|d ds] eqn:Hds.
  { apply Forall2_nil_inv_r in Hdegrees. done. }
  exists (d :: ds), (fold_left Qmin ds d).
  split; [done|]. split; [apply fold_Qmin_minimum|].
  assert (Hstrength : firing_strength fuzzified rule
                      = fold_left Qmin ds d * weight rule)
    by (unfold firing_strength; by rewrite Hds).
  split; [done|].
  intros acts agg term current Hterm Hcur.
  rewrite (apply_rule_spec _ _ _ _ _ _ Hterm Hcur).
  unfold reported, fires. rewrite Hds, Hstrength. cbn [andb].
  by destruct (Qltb 0.01 _).
Qed.

Lemma and_is_min_witness :
  ∃ least, is_minimum least [0.9; 0.2]
    ∧ firing_strength two_degrees bright_and_open
      = least * weight bright_and_open.
Proof.
  destruct (and_is_min two_degrees bright_and_open)
    as (degrees & least & Hdegrees & Hleast & Hstrength & _).
  - done.
  - intros var term Hin.
    apply elem_of_cons in Hin as [[= -> ->] | Hin];
      [exists {[ "high" := 0.9 ]}, 0.9; split; reflexivity|].
    apply elem_of_cons in Hin as [[= -> ->] | Hin];
      [exists {[ "good" := 0.2 ]}, 0.2; split; reflexivity|].
    by apply elem_of_nil in Hin.
  - exists least. split; [|exact Hstrength].
    apply Forall2_cons_inv_l in Hdegrees
      as (d1 & rest & (ds1 & Hds1 & Hd1) & Hrest & ->).
    apply Forall2_cons_inv_l in Hrest
      as (d2 & rest' & (ds2 & Hds2 & Hd2) & Hrest & ->).
    apply Forall2_nil_inv_l in Hrest as ->.
    change (Some {[ "high" := 0.9 ]} = Some ds1) in Hds1.
    change (Some {[ "good" := 0.2 ]} = Some ds2) in Hds2.
    injection Hds1 as <-. injection Hds2 as <-.
    injection Hd1 as <-. injection Hd2 as <-. exact Hleast.
Defined.

(** The example of the claim: degrees 0.9 and 0.2 under weight 1.0 fire at
    0.2, not at 0.18. *)
Example and_is_min_not_product :
  firing_strength two_degrees bright_and_open == 0.2
  ∧ ¬ firing_strength two_degrees bright_and_open == 0.18.
Proof. split; by vm_compute. Qed.

(** ** C5: aggregation is the maximum *)

Lemma valid_rule_base_elem (self : LiveabilityFuzzySystem.t) (rule : Rule) :
  valid_rule_base self = true → rule ∈ get_rules (rule_base self) →
  0 < weight rule ∧ weight rule <= 1
  ∧ ∃ term, consequent rule !! "livability" = Some term ∧ term ∈ output_terms.
Proof.
  unfold valid_rule_base. rewrite forallb_forall. intros Hvalid Hin.
  apply list_elem_of_In, Hvalid in Hin. unfold valid_rule in Hin.
  apply andb_true_iff in Hin as [Hin Hw1].
  apply andb_true_iff in Hin as [Hterm Hw0].
  apply Qltb_lt in Hw0. apply Qle_bool_iff in Hw1.
  destruct (consequent rule !! "livability") as [term|]; [|done].
  apply bool_decide_eq_true in Hterm. eauto.
Qed.



(** The example of the claim: strengths 0.3 and 0.6 on the same consequent
    aggregate to 0.6, not to 0.9. *)
Example aggregation_is_max_not_sum :
  firing_strength (fuzzified_of noise_only) moderate_by_day == 0.3
  ∧ firing_strength (fuzzified_of noise_only) moderate_by_night == 0.6
  ∧ ∃ res level,
      compute_single_dwelling (with_rules [moderate_by_day; moderate_by_night])
                              noise_only = Returns res
      ∧ output_memberships res !! "good" = Some level
      ∧ level == 0.6 ∧ ¬ level == 0.9.
Proof.
  split; [by vm_compute|]. split; [by vm_compute|].
  eexists _, _. split; [by vm_compute|]. split; [by vm_compute|].
  split; by vm_compute.
Qed.

(** ** C6: the score stays in the output universe *)

(** C6: for every record the call returns and the score lies between 0 and
    100, both included. *)
Theorem score_in_range (self : LiveabilityFuzzySystem.t)
    (features : gmap string Q) :
  valid_rule_base self = true →
  ∃ res, compute_single_dwelling self features = Returns res
    ∧ 0 <= fli_score res ∧ fli_score res <= 100.
Proof.
  intros Hvalid.
  destruct (compute_single_dwelling_spec self features Hvalid)
    as (res & Hres & _ & _ & _ & [Hlo Hhi] & _).
  by exists res.
Qed.

Lemma score_in_range_witness :
  ∃ res, compute_single_dwelling __init__ example_dwelling = Returns res
    ∧ 0 <= fli_score res ∧ fli_score res <= 100.
Proof. apply score_in_range. vm_compute. reflexivity. Defined.

(** ** C7: degrees of membership *)

(** C7: for every variable of the model, every term on it and every value,
    [fuzzify_value] returns a degree for the term, the degree lies in [0,1],
    and a value left of the universe's first sample or right of its last
    one gets the degree of that edge sample. *)
Theorem fuzzify_value_clamped (variable term : string)
    (terms : gmap string (list Q)) (mf : list Q) (value : Q) :
  membership_functions !! variable = Some terms → terms !! term = Some mf →
  ∃ universe degrees d,
    universes !! variable = Some universe
    ∧ fuzzify_value variable value = Returns degrees
    ∧ degrees !! term = Some d
    ∧ 0 <= d ∧ d <= 1
    ∧ (value <= List.hd 0 universe → d = List.hd 0 mf)
    ∧ (List.last universe 0 < value → d = List.last mf 0).
Proof.
  intros Hterms Hmf.
  destruct (membership_functions_ok _ _ Hterms) as (Hu & Hinc & Hall).
  destruct (Hall _ _ Hmf) as [Hunit Hlen].
  exists (U variable). eexists. eexists.
  split; [exact Hu|]. split; [apply fuzzify_value_spec|].
  unfold degrees_of. rewrite Hterms. cbn [default from_option Datatypes.id].
  rewrite lookup_fmap, Hmf. split; [reflexivity|].
  destruct (interp_membership_unit (U variable) mf value Hunit) as [Hlo Hhi].
  split; [exact Hlo|]. split; [exact Hhi|]. split.
  - intros Hleft. destruct (U variable) as [|x0 x]; destruct mf as [|y0 ys];
      try done.
    by apply interp_membership_left.
  - intros Hright. apply interp_membership_right; [done|].
    by apply (increasing_below_last _ 0).
Qed.

Lemma fuzzify_value_clamped_witness :
  ∃ degrees d,
    fuzzify_value "noise_lden" 1000 = Returns degrees
    ∧ degrees !! "noisy" = Some d ∧ 0 <= d ∧ d <= 1.
Proof.
  assert (Hdefined : ∃ terms mf,
            membership_functions !! "noise_lden" = Some terms
            ∧ terms !! "noisy" = Some mf).
  { unfold membership_functions, _define_membership_functions.
    eexists _, _. split.
    - rewrite !lookup_insert_ne by done. apply lookup_insert_eq.
    - unfold terms3. apply lookup_insert_eq. }
  destruct Hdefined as (terms & mf & Hterms & Hmf).
  destruct (fuzzify_value_clamped "noise_lden" "noisy" terms mf 1000
              Hterms Hmf)
    as (universe & degrees & d & _ & Hres & Hd & Hlo & Hhi & _).
  exists degrees, d.
  split; [exact Hres|]. split; [exact Hd|]. split; [exact Hlo | exact Hhi].
Defined.

(** ** Order of rule lists *)

Section Ordering.

Lemma StronglySorted_sublist {A} (R : relation A) (k l : list A) :
  k `sublist_of` l → StronglySorted R l → StronglySorted R k.
Proof.
  induction 1 as [|x k l Hsub IH|x k l Hsub IH]; intros Hsorted.
  - constructor.
  - apply StronglySorted_inv in Hsorted as [Hsorted Hall].
    constructor; [by apply IH|].
    rewrite Forall_forall in Hall |- *. intros y Hy.
    apply Hall. by eapply elem_of_sublist.
  - apply StronglySorted_inv in Hsorted as [Hsorted _]. by apply IH.
Qed.

Lemma ascending_ids_sorted (rules : list Rule) :
  ascending_ids rules = true → StronglySorted Z.lt (id <$> rules).
Proof.
  intros Hasc.
  apply Sorted_StronglySorted; [intros x y z; apply Z.lt_trans|].
  induction rules as [|r1 rules IH]; [constructor|].
  destruct rules as [|r2 rules]; [repeat constructor|].
  cbn [ascending_ids] in Hasc. apply andb_true_iff in Hasc as [Hlt Hasc].
  constructor; [by apply IH|]. constructor. by apply Z.ltb_lt.
Qed.

Lemma reported_entries (fuzzified : gmap string (gmap string Q))
    (rules : list Rule) :
  omap (reported fuzzified) rules
  = entry_of fuzzified <$> filter (significant_rule fuzzified) rules.
Proof.
  induction rules as [|rule rules IH]; [done|].
  change (omap (reported fuzzified) (rule :: rules))
    with (match reported fuzzified rule with
          | Some entry => entry :: omap (reported fuzzified) rules
          | None => omap (reported fuzzified) rules
          end).
  rewrite filter_cons.
  assert (Hrep : reported fuzzified rule
                 = if Qltb 0.01 (firing_strength fuzzified rule)
                   then Some (entry_of fuzzified rule) else None).
  { unfold reported, entry_of, fires, firing_strength.
    by destruct (activation_degrees fuzzified rule). }
  rewrite Hrep, IH. unfold significant_rule at 1.
  destruct (decide _) as [Hyes | Hno].
  - by rewrite Hyes.
  - by apply not_true_is_false in Hno as ->.
Qed.

(** Membership and order after one insertion of the stable sort. *)
Lemma insert_desc_elem {A} (key : A → Q) (x : A) (l : list A) (y : A) :
  y ∈ insert_desc key x l ↔ y = x ∨ y ∈ l.
Proof.
  induction l as [|z l IH]; cbn [insert_desc].
  - rewrite list_elem_of_singleton. split; [by left|].
    intros [Heq | Hin]; [done | by apply elem_of_nil in Hin].
  - destruct (Qle_bool (key z) (key x)).
    + by rewrite elem_of_cons.
    + rewrite !elem_of_cons, IH. tauto.
Qed.

Lemma sorted_reverse_elem {A} (key : A → Q) (l : list A) (y : A) :
  y ∈ sorted_reverse key l ↔ y ∈ l.
Proof.
  induction l as [|x l IH]; [done|].
  cbn [sorted_reverse foldr]. fold (sorted_reverse key l).
  by rewrite insert_desc_elem, elem_of_cons, IH.
Qed.

Lemma insert_desc_sorted (x : ActivatedRule) (l : list ActivatedRule) :
  StronglySorted listed_before l →
  Forall (λ y, (rule_id x < rule_id y)%Z) l →
  StronglySorted listed_before (insert_desc activation x l).
Proof.
  induction l as [|y l IH]; intros Hsorted Hids; cbn [insert_desc].
  { repeat constructor. }
  apply StronglySorted_inv in Hsorted as [Hsorted Hy].
  apply Forall_cons in Hids as [Hxy Hids].
  destruct (Qle_bool (activation y) (activation x)) eqn:Hle.
  - apply Qle_bool_iff in Hle.
    assert (Hfirst : listed_before x y).
    { unfold listed_before. destruct (Qlt_le_dec (activation y) (activation x));
        [by left | right]. split; [by apply Qle_antisym | done]. }
    constructor; [by constructor|]. constructor; [done|].
    rewrite Forall_forall in Hy, Hids |- *. intros z Hz.
    specialize (Hy z Hz). specialize (Hids z Hz).
    unfold listed_before in *.
    destruct Hy as [Hlt | [Heq _]], Hfirst as [Hlt' | [Heq' _]].
    + left. lra.
    + left. lra.
    + left. lra.
    + right. split; [lra | done].
  - apply Qle_bool_false in Hle.
    constructor; [by apply IH|].
    rewrite Forall_forall in Hy |- *. intros z Hz.
    apply insert_desc_elem in Hz as [-> | Hz]; [by left | by apply Hy].
Qed.

(** The stable descending sort of a list in ascending id order lists
    stronger rules first and, among equal strengths, lower ids first. *)
Lemma sorted_reverse_sorted (l : list ActivatedRule) :
  StronglySorted Z.lt (rule_id <$> l) →
  StronglySorted listed_before (sorted_reverse activation l).
Proof.
  induction l as [|x l IH]; intros Hids; [constructor|].
  cbn [fmap list_fmap] in Hids.
  apply StronglySorted_inv in Hids as [Hids Hx].
  cbn [sorted_reverse foldr]. fold (sorted_reverse activation l).
  apply insert_desc_sorted; [by apply IH|].
  rewrite Forall_forall. intros y Hy%sorted_reverse_elem.
  rewrite Forall_forall in Hx. apply Hx.
  apply list_elem_of_fmap. by exists y.
Qed.

Lemma slice_to_sublist {A} (l : list A) (n : Z) :
  slice_to l n `sublist_of` l.
Proof. unfold slice_to. destruct (0 <=? n)%Z; apply sublist_take. Qed.

End Ordering.

(** ** C10: the reported rules *)

(** The rules reported for a record, for any valid rule base. *)
Lemma activated_rules_of (self : LiveabilityFuzzySystem.t)
    (features : gmap string Q) :
  valid_rule_base self = true →
  ∃ res, compute_single_dwelling self features = Returns res
    ∧ activated_rules res
      = entry_of (input_fuzzification res)
          <$> filter (significant_rule (input_fuzzification res))
                     (get_rules (rule_base self))
    ∧ Forall (λ entry, 0.01 < activation entry ∧ activation entry <= 1)
             (activated_rules res)
    ∧ (ascending_ids (get_rules (rule_base self)) = true →
       StronglySorted Z.lt (rule_id <$> activated_rules res)).
Proof.
  intros Hvalid.
  destruct (compute_single_dwelling_spec self features Hvalid)
    as (res & Hres & Hfz & Hacts & _ & _ & _).
  exists res. split; [exact Hres|].
  rewrite Hacts, Hfz, reported_entries. split; [reflexivity|]. split.
  - apply Forall_fmap, Forall_forall. intros rule Hin.
    apply list_elem_of_filter in Hin as [Hsig Hin]. cbn [activation entry_of compose].
    split; [by apply Qltb_lt|].
    destruct (valid_rule_base_elem self rule Hvalid Hin) as (Hw0 & Hw1 & _).
    apply firing_strength_unit; [|lra|done].
    intros var degrees term d. apply fuzzified_of_unit.
  - intros Hasc. rewrite <- list_fmap_compose.
    apply (StronglySorted_sublist _ _ (id <$> get_rules (rule_base self)));
      [|by apply ascending_ids_sorted].
    apply fmap_sublist, sublist_filter.
Qed.


(** ** C8: order of the explanation *)

(** C8: in the explanation of any record, for any top-N, the listed rules
    are the first entries of the activated rules put in descending order of
    firing strength: of two listed rules the earlier one has the strictly
    greater strength, or the same strength and the lower id. *)
Theorem explanation_order (features : gmap string Q) (top_n_rules : Z) :
  ∃ res explanation,
    compute_single_dwelling __init__ features = Returns res
    ∧ explain_dwelling __init__ features top_n_rules = Returns explanation
    ∧ listed_rules explanation
      = slice_to (sorted_reverse activation (activated_rules res)) top_n_rules
    ∧ (∀ entry, entry ∈ sorted_reverse activation (activated_rules res)
                ↔ entry ∈ activated_rules res)
    ∧ StronglySorted listed_before
        (sorted_reverse activation (activated_rules res))
    ∧ StronglySorted listed_before (listed_rules explanation).
Proof.
  destruct (activated_rules_of __init__ features)
    as (res & Hres & _ & _ & Hsorted); [by vm_compute|].
  specialize (Hsorted eq_refl).
  exists res. eexists. split; [exact Hres|].
  unfold explain_dwelling. rewrite Hres. cbn [Py.bind].
  split; [reflexivity|]. cbn [listed_rules]. split; [reflexivity|].
  split; [intros entry; apply sorted_reverse_elem|].
  pose proof (sorted_reverse_sorted _ Hsorted) as Hdesc.
  split; [exact Hdesc|].
  eapply StronglySorted_sublist; [apply slice_to_sublist | exact Hdesc].
Qed.

(** Two rules that fire at the same strength are listed lower id first. *)
Example explanation_tie_break :
  sorted_reverse activation
    [ {| rule_id := 1; rule_description := "a"; activation := 0.5 |};
      {| rule_id := 3; rule_description := "b"; activation := 0.7 |};
      {| rule_id := 4; rule_description := "c"; activation := 0.5 |} ]
  = [ {| rule_id := 3; rule_description := "b"; activation := 0.7 |};
      {| rule_id := 1; rule_description := "a"; activation := 0.5 |};
      {| rule_id := 4; rule_description := "c"; activation := 0.5 |} ].
Proof. reflexivity. Qed.

(** ** C9: the daylight unit conversion *)

Section Batch.

(** The value a batch row passes on for daylight is the cell of a column
    mapped to daylight, times 1000 when the cell is below 10. *)
Lemma extract_features_daylight (feature_mapping : list (string * string))
    (row : gmap string Q) (w : Q) :
  extract_features feature_mapping row !! "daylight" = Some w →
  ∃ dataset_col value,
    (dataset_col, "daylight") ∈ feature_mapping
    ∧ row !! dataset_col = Some value
    ∧ w = if Qltb value 10 then value * 1000 else value.
Proof.
  unfold extract_features.
  assert (Hgen : ∀ acc : gmap string Q,
    foldl (λ features '(dataset_col, fuzzy_var),
             match row !! dataset_col with
             | Some value =>
                 let value :=
                   if bool_decide (fuzzy_var = "daylight") && Qltb value 10
                   then value * 1000 else value in
                 <[fuzzy_var := value]> features
             | None => features
             end) acc feature_mapping !! "daylight" = Some w →
    acc !! "daylight" = Some w
    ∨ ∃ dataset_col value,
        (dataset_col, "daylight") ∈ feature_mapping
        ∧ row !! dataset_col = Some value
        ∧ w = if Qltb value 10 then value * 1000 else value).
  { induction feature_mapping as [|[col var] rest IH]; intros acc Hw;
      [by left|].
    cbn [foldl] in Hw. apply IH in Hw as [Hacc | (c & v & Hin & Hrow & ->)].
    - destruct (row !! col) as [value|] eqn:Hrow; [|by left].
      destruct (decide (var = "daylight")) as [-> | Hne].
      + right. exists col, value. split; [left|]. split; [done|].
        rewrite lookup_insert_eq in Hacc.
        rewrite bool_decide_eq_true_2 in Hacc by done. cbn [andb] in Hacc.
        by injection Hacc as <-.
      + left. by rewrite lookup_insert_ne in Hacc.
    - right. exists c, v. split; [by right | done]. }
  intros Hw. apply Hgen in Hw as [Hempty | Hfound]; [|done].
  by rewrite lookup_empty in Hempty.
Qed.

(** [compute_single_dwelling] fuzzifies a value as it is given. *)
Lemma fuzzified_as_given (self : LiveabilityFuzzySystem.t)
    (features : gmap string Q) (var : string) (value : Q) :
  valid_rule_base self = true →
  is_Some (membership_functions !! var) → features !! var = Some value →
  ∃ res degrees,
    compute_single_dwelling self features = Returns res
    ∧ fuzzify_value var value = Returns degrees
    ∧ input_fuzzification res !! var = Some degrees.
Proof.
  intros Hvalid [terms Hterms] Hvalue.
  destruct (compute_single_dwelling_spec self features Hvalid)
    as (res & Hres & Hfz & _).
  exists res. eexists. split; [exact Hres|].
  split; [apply fuzzify_value_spec|].
  rewrite Hfz, fuzzified_of_lookup, Hvalue. unfold degrees_of.
  by rewrite Hterms.
Qed.

(** The batch loop, from any list of rows already produced. *)
Lemma compute_batch_from (self : LiveabilityFuzzySystem.t)
    (mapping : list (string * string)) (df : DataFrame) :
  valid_rule_base self = true →
  ∀ done_rows, ∃ results,
    foldl (score_row self mapping) (Returns done_rows) df
    = Returns (done_rows ++ results)
    ∧ Forall2 (scored_as self mapping) df results.
Proof.
  intros Hvalid. induction df as [|[idx row] df IH]; intros done_rows.
  { exists []. split; [by rewrite app_nil_r | constructor]. }
  destruct (compute_single_dwelling_spec self (extract_features mapping row)
              Hvalid) as (res & Hres & _).
  destruct (IH (done_rows ++
                  [{| dwelling_id := idx;
                      batch_fli_score := fli_score res;
                      batch_linguistic_label := linguistic_label res;
                      num_activated_rules := length (activated_rules res) |}]))
    as (results & Hrun & Hall).
  eexists (_ :: results). split.
  - cbn [foldl]. unfold score_row at 2. cbn [Py.bind]. rewrite Hres.
    cbn [Py.bind]. rewrite Hrun. by rewrite <- app_assoc.
  - constructor; [|exact Hall]. exists res. split; [exact Hres|].
    repeat split.
Qed.

(** Every row of a batch with at least one row goes through
    [extract_features] and then through [compute_single_dwelling]; the
    rows come out in order. *)
Lemma compute_batch_rows (self : LiveabilityFuzzySystem.t) (df : DataFrame)
    (feature_mapping : option (list (string * string))) :
  valid_rule_base self = true → df ≠ [] →
  ∃ results,
    compute_batch self df feature_mapping = Returns results
    ∧ Forall2 (scored_as self
                 (default default_feature_mapping feature_mapping))
              df results.
Proof.
  intros Hvalid Hrows. unfold compute_batch.
  destruct (compute_batch_from self
              (default default_feature_mapping feature_mapping) df Hvalid [])
    as (results & Hrun & Hall).
  exists results. split; [|exact Hall].
  rewrite Hrun. cbn [app Py.bind].
  destruct Hall as [|record out df' results' _ _]; [by destruct Hrows | done].
Qed.

(** A frame without rows: the loop produces nothing and the summary
    fails on the missing column. *)
Lemma compute_batch_nil (self : LiveabilityFuzzySystem.t)
    (feature_mapping : option (list (string * string))) :
  compute_batch self [] feature_mapping = Raises (KeyError "fli_score").
Proof. reflexivity. Qed.

(** The daylight feature extracted from a row, when one column is mapped
    to daylight: the cell of that column, times 1000 when it is below 10;
    no daylight feature when the row lacks the column. *)
Lemma extract_features_daylight_cell (mapping : list (string * string))
    (row : gmap string Q) (dataset_col : string) :
  (dataset_col, "daylight") ∈ mapping →
  (∀ col, (col, "daylight") ∈ mapping → col = dataset_col) →
  extract_features mapping row !! "daylight"
  = (λ value, if Qltb value 10 then value * 1000 else value)
      <$> row !! dataset_col.
Proof.
  intros Hin Honly. unfold extract_features.
  set (step := λ (features : gmap string Q) '(col, fuzzy_var),
         match row !! col with
         | Some value =>
             let value :=
               if bool_decide (fuzzy_var = "daylight") && Qltb value 10
               then value * 1000 else value in
             <[fuzzy_var := value]> features
         | None => features
         end).
  assert (Hgen : ∀ acc : gmap string Q,
    foldl step acc mapping !! "daylight"
    = match row !! dataset_col with
      | Some value =>
          if bool_decide ("daylight" ∈ mapping.*2)
          then Some (if Qltb value 10 then value * 1000 else value)
          else acc !! "daylight"
      | None => acc !! "daylight"
      end).
  { clear Hin. induction mapping as [|[col var] rest IH]; intros acc.
    { cbn [foldl fmap list_fmap]. rewrite bool_decide_eq_false_2.
      - by destruct (row !! dataset_col).
      - apply not_elem_of_nil. }
    cbn [foldl]. rewrite IH.
    2:{ intros c Hc. apply Honly. by right. }
    destruct (decide (var = "daylight")) as [-> | Hne].
    - assert (col = dataset_col) as -> by (apply Honly; left).
      unfold step at 1 2. destruct (row !! dataset_col) as [value|]; [|done].
      rewrite (bool_decide_eq_true_2
                 ("daylight" ∈ ((dataset_col, "daylight") :: rest).*2))
        by (cbn [fmap list_fmap snd]; left).
      rewrite (bool_decide_eq_true_2 ("daylight" = "daylight")) by done.
      cbn [andb]. rewrite lookup_insert_eq. by destruct (bool_decide _).
    - assert (Hrest : bool_decide ("daylight" ∈ ((col, var) :: rest).*2)
                      = bool_decide ("daylight" ∈ rest.*2)).
      { apply bool_decide_ext. cbn [fmap list_fmap snd]. split.
        - intros [Heq | Hr]%elem_of_cons; [by destruct Hne | done].
        - intros Hr. by right. }
      rewrite Hrest.
      assert (Hacc : step acc (col, var) !! "daylight" = acc !! "daylight").
      { unfold step. destruct (row !! col); [|done].
        by rewrite lookup_insert_ne. }
      by rewrite Hacc. }
  rewrite Hgen, lookup_empty.
  destruct (row !! dataset_col) as [value|]; [|done].
  rewrite bool_decide_eq_true_2; [done|].
  apply list_elem_of_fmap. by exists (dataset_col, "daylight").
Qed.

End Batch.

(** C9, as stated, fails: scored on its own, the record [{daylight: 5}] has
    its daylight fuzzified at 5, not at 5000; the degree of "low" is 1,
    where at 5000 it is 0. *)
Lemma single_record_daylight_unchanged :
  ∃ res degrees,
    compute_single_dwelling __init__ dim_record = Returns res
    ∧ input_fuzzification res !! "daylight" = Some degrees
    ∧ fuzzify_value "daylight" 5 = Returns degrees
    ∧ (∃ low, degrees !! "low" = Some low ∧ low == 1)
    ∧ (∃ converted low,
         fuzzify_value "daylight" (5 * 1000) = Returns converted
         ∧ converted !! "low" = Some low ∧ low == 0).
Proof.
  destruct (compute_single_dwelling_spec __init__ dim_record)
    as (res & Hres & Hfz & _); [vm_compute; reflexivity|].
  exists res, (default ∅ (degrees_of "daylight" 5)).
  split; [exact Hres|]. split.
  { rewrite Hfz, fuzzified_of_lookup. unfold dim_record.
    rewrite lookup_singleton_eq. vm_compute. reflexivity. }
  split; [apply fuzzify_value_spec|]. split.
  - eexists. split; vm_compute; reflexivity.
  - exists (default ∅ (degrees_of "daylight" (5 * 1000))). eexists.
    split; [apply fuzzify_value_spec|]. split; vm_compute; reflexivity.
Qed.

(** C9, amended: the conversion belongs to the batch operation.  For a
    frame with at least one row and a column mapping in which one dataset
    column is mapped to daylight, every row of the batch is scored, in
    order, on the features extracted from it; the daylight feature is the
    cell of that column, multiplied by 1000 when the cell is strictly below
    10 and unchanged when it is 10 or more, and it is that value which is
    fuzzified; a row without the column has no daylight feature and no
    daylight fuzzification.  The single-record operation fuzzifies the
    daylight value it is given. *)
Theorem batch_converts_daylight (self : LiveabilityFuzzySystem.t)
    (df : DataFrame) (feature_mapping : option (list (string * string)))
    (dataset_col : string) :
  valid_rule_base self = true →
  df ≠ [] →
  (dataset_col, "daylight")
    ∈ default default_feature_mapping feature_mapping →
  (∀ col, (col, "daylight")
            ∈ default default_feature_mapping feature_mapping →
          col = dataset_col) →
  (∃ results,
     compute_batch self df feature_mapping = Returns results
     ∧ Forall2
         (λ record out,
            let mapping := default default_feature_mapping feature_mapping in
            let features := extract_features mapping record.2 in
            ∃ res,
              compute_single_dwelling self features = Returns res
              ∧ dwelling_id out = record.1
              ∧ batch_fli_score out = fli_score res
              ∧ batch_linguistic_label out = linguistic_label res
              ∧ match record.2 !! dataset_col with
                | Some value =>
                    let passed :=
                      if Qltb value 10 then value * 1000 else value in
                    features !! "daylight" = Some passed
                    ∧ (value < 10 → passed = value * 1000)
                    ∧ (10 <= value → passed = value)
                    ∧ ∃ degrees,
                        fuzzify_value "daylight" passed = Returns degrees
                        ∧ input_fuzzification res !! "daylight"
                          = Some degrees
                | None =>
                    features !! "daylight" = None
                    ∧ input_fuzzification res !! "daylight" = None
                end)
         df results)
  ∧ (∀ features value, features !! "daylight" = Some value →
       ∃ res degrees,
         compute_single_dwelling self features = Returns res
         ∧ fuzzify_value "daylight" value = Returns degrees
         ∧ input_fuzzification res !! "daylight" = Some degrees).
Proof.
  intros Hvalid Hrows Hin Honly.
  assert (Hdaylight : is_Some (membership_functions !! "daylight")).
  { unfold membership_functions, _define_membership_functions.
    rewrite !lookup_insert_ne by done. rewrite lookup_insert_eq. by eexists. }
  split.
  - destruct (compute_batch_rows self df feature_mapping Hvalid Hrows)
      as (results & Hrun & Hall).
    exists results. split; [exact Hrun|].
    eapply Forall2_impl; [exact Hall|].
    intros record out (res & Hres & Hid & Hscore & Hlabel & _). cbn zeta.
    exists res. split; [exact Hres|]. split; [exact Hid|].
    split; [exact Hscore|]. split; [exact Hlabel|].
    pose proof (extract_features_daylight_cell _ record.2 dataset_col
                  Hin Honly) as Hcell.
    destruct (record.2 !! dataset_col) as [value|] eqn:Hvalue.
    + cbn [fmap option_fmap option_map] in Hcell.
      split; [exact Hcell|]. split.
      { intros Hlt. unfold Qltb. destruct (Qle_bool 10 value) eqn:Hle; [|done].
        apply Qle_bool_iff in Hle. exfalso. lra. }
      split.
      { intros Hge. unfold Qltb. apply Qle_bool_iff in Hge. by rewrite Hge. }
      destruct (fuzzified_as_given self _ "daylight" _ Hvalid Hdaylight Hcell)
        as (res' & degrees & Hres' & Hfuzz & Hfz).
      exists degrees. split; [exact Hfuzz|]. congruence.
    + cbn [fmap option_fmap option_map] in Hcell. split; [exact Hcell|].
      destruct (compute_single_dwelling_spec self
                  (extract_features
                     (default default_feature_mapping feature_mapping)
                     record.2) Hvalid) as (res' & Hres' & Hfz & _).
      assert (res' = res) as -> by congruence.
      rewrite Hfz, fuzzified_of_lookup, Hcell. reflexivity.
  - intros features value Hvalue.
    by apply fuzzified_as_given.
Qed.

Lemma batch_converts_daylight_witness :
  valid_rule_base __init__ = true
  ∧ one_row ≠ []
  ∧ ∃ results, compute_batch __init__ one_row None = Returns results.
Proof.
  split; [vm_compute; reflexivity|]. split; [discriminate|].
  destruct (batch_converts_daylight __init__ one_row None "daylight_avg")
    as [(results & Hrun & _) _].
  - vm_compute. reflexivity.
  - discriminate.
  - cbn [default from_option Datatypes.id]. unfold default_feature_mapping.
    do 2 right. left.
  - cbn [default from_option Datatypes.id]. unfold default_feature_mapping.
    intros col Hcol.
    repeat (apply elem_of_cons in Hcol as [Heq | Hcol];
            [by (discriminate Heq || (by injection Heq as ->))|]).
    by apply elem_of_nil in Hcol.
  - exists results. exact Hrun.
Defined.

(** * Further properties of the rule base *)

Section RuleBaseQueries.

(** X2: [get_rule_by_id] returns the first rule of the rule base that has
    the id asked for; it returns None exactly when no rule has that id. *)
Theorem get_rule_by_id_first (self : FuzzyRuleBase.t) (rule_id : Z) :
  match get_rule_by_id self rule_id with
  | Some rule =>
      id rule = rule_id
      ∧ ∃ before after, rules self = before ++ rule :: after
          ∧ ∀ earlier, earlier ∈ before → id earlier ≠ rule_id
  | None => ∀ rule, rule ∈ rules self → id rule ≠ rule_id
  end.
Proof.
  unfold get_rule_by_id. induction (rules self) as [|r l IH]; cbn [find].
  { intros rule Hin. by apply elem_of_nil in Hin. }
  destruct (id r =? rule_id)%Z eqn:Hid.
  - apply Z.eqb_eq in Hid. split; [done|]. exists [], l. split; [done|].
    intros earlier Hin. by apply elem_of_nil in Hin.
  - apply Z.eqb_neq in Hid. destruct (find _ l) as [rule|].
    + destruct IH as (Hrule & before & after & -> & Hbefore).
      split; [done|]. exists (r :: before), after. split; [done|].
      intros earlier [-> | Hin]%elem_of_cons; [done | by apply Hbefore].
    + intros rule [-> | Hin]%elem_of_cons; [done | by apply IH].
Qed.

(** X3: when the ids of the rule base are pairwise distinct, looking a rule
    up by its own id gives that rule back. *)
Theorem get_rule_by_id_round_trip (self : FuzzyRuleBase.t) (rule : Rule) :
  NoDup (id <$> rules self) → rule ∈ rules self →
  get_rule_by_id self (id rule) = Some rule.
Proof.
  unfold get_rule_by_id. induction (rules self) as [|r l IH];
    intros Hdistinct Hin; [by apply elem_of_nil in Hin|].
  cbn [fmap list_fmap] in Hdistinct.
  apply NoDup_cons in Hdistinct as [Hfresh Hdistinct]. cbn [find].
  apply elem_of_cons in Hin as [-> | Hin].
  - by rewrite Z.eqb_refl.
  - destruct (id r =? id rule)%Z eqn:Hid; [|by apply IH].
    apply Z.eqb_eq in Hid. exfalso. apply Hfresh. rewrite Hid.
    apply list_elem_of_fmap. by exists rule.
Qed.

Lemma get_rule_by_id_round_trip_witness :
  get_rule_by_id FuzzyRuleBase.__init__
    (id (List.nth 8 _define_rules comfort_rule))
  = Some (List.nth 8 _define_rules comfort_rule).
Proof.
  apply get_rule_by_id_round_trip.
  - refine (bool_decide_unpack _ _). vm_compute. reflexivity.
  - cbn [List.nth _define_rules]. do 8 right. left.
Defined.

(** The loop of [get_rules_by_consequent], from any list collected so
    far, over rules that all name a consequent. *)
Lemma collect_consequent_from (term : string) (rules : list Rule) :
  ∀ collected,
    Forall (λ rule, is_Some (consequent rule !! "livability")) rules →
    foldl (collect_consequent term) (Returns collected) rules
    = Returns (collected
               ++ filter (λ rule, consequent rule !! "livability" = Some term)
                         rules).
Proof.
  induction rules as [|r l IH]; intros collected Hall.
  { by rewrite app_nil_r. }
  apply Forall_cons in Hall as [[t Ht] Hall].
  cbn [foldl]. unfold collect_consequent at 2. cbn [Py.bind].
  unfold getitem. rewrite Ht. cbn [Py.bind]. rewrite filter_cons.
  destruct (decide (consequent r !! "livability" = Some term)) as [Heq | Hne].
  - rewrite bool_decide_eq_true_2 by congruence.
    rewrite IH by done. by rewrite <- app_assoc.
  - rewrite bool_decide_eq_false_2 by congruence. by apply IH.
Qed.

(** X4: when every rule names a consequent, [get_rules_by_consequent]
    returns exactly the rules with the given consequent term, in the order
    of the rule base. *)
Theorem get_rules_by_consequent_filter (self : FuzzyRuleBase.t)
    (term : string) :
  Forall (λ rule, is_Some (consequent rule !! "livability")) (rules self) →
  get_rules_by_consequent self term
  = Returns (filter (λ rule, consequent rule !! "livability" = Some term)
                    (rules self)).
Proof.
  intros Hall. unfold get_rules_by_consequent.
  by rewrite collect_consequent_from.
Qed.

Lemma get_rules_by_consequent_filter_witness :
  ∃ found, get_rules_by_consequent FuzzyRuleBase.__init__ "fair" = Returns found
    ∧ id <$> found = [6; 7; 8]%Z.
Proof.
  eexists. split.
  - apply get_rules_by_consequent_filter.
    apply Forall_forall. intros rule Hin.
    repeat (apply elem_of_cons in Hin as [-> | Hin]; [by eexists|]).
    by apply elem_of_nil in Hin.
  - vm_compute. reflexivity.
Defined.

(** X5: a rule without a livability consequent makes
    [get_rules_by_consequent] fail with KeyError, whatever term is asked
    for. *)
Theorem get_rules_by_consequent_key_error (self : FuzzyRuleBase.t)
    (term : string) :
  Exists (λ rule, consequent rule !! "livability" = None) (rules self) →
  get_rules_by_consequent self term = Raises (KeyError "livability").
Proof.
  unfold get_rules_by_consequent. generalize (@nil Rule).
  induction (rules self) as [|r l IH]; intros collected Hex;
    [by apply Exists_nil in Hex|].
  cbn [foldl]. unfold collect_consequent at 2. cbn [Py.bind]. unfold getitem.
  destruct (consequent r !! "livability") as [t|] eqn:Ht.
  - apply Exists_cons in Hex as [Hr | Hl]; [congruence|]. cbn [Py.bind].
    destruct (bool_decide (t = term)); by apply IH.
  - cbn [Py.bind]. clear. induction l as [|r' l IH]; [done|]. exact IH.
Qed.

Lemma get_rules_by_consequent_key_error_witness :
  get_rules_by_consequent {| rules := _define_rules ++ [comfort_rule] |} "good"
  = Raises (KeyError "livability").
Proof.
  apply get_rules_by_consequent_key_error.
  apply Exists_app. right. apply Exists_cons_hd. vm_compute. reflexivity.
Defined.

Lemma named_consequents (rules : list Rule) :
  forallb valid_rule rules = true →
  Forall (λ rule, ∃ term, consequent rule !! "livability" = Some term
                          ∧ term ∈ output_terms) rules.
Proof.
  rewrite forallb_forall, Forall_forall. intros Hvalid rule Hin.
  apply list_elem_of_In, Hvalid in Hin. unfold valid_rule in Hin.
  destruct (consequent rule !! "livability") as [term|]; [|done].
  apply andb_true_iff in Hin as [Hin _].
  apply andb_true_iff in Hin as [Hin _].
  apply bool_decide_eq_true in Hin. by exists term.
Qed.

(** X6: in a valid rule base the rules found for the four output terms
    make up the whole rule base: each call returns, and the four lists put
    together are a rearrangement of the rule list (so every rule is found
    under exactly one term). *)
Theorem consequents_partition (self : FuzzyRuleBase.t) :
  forallb valid_rule (rules self) = true →
  ∃ poor fair good excellent,
    get_rules_by_consequent self "poor" = Returns poor
    ∧ get_rules_by_consequent self "fair" = Returns fair
    ∧ get_rules_by_consequent self "good" = Returns good
    ∧ get_rules_by_consequent self "excellent" = Returns excellent
    ∧ poor ++ fair ++ good ++ excellent ≡ₚ rules self.
Proof.
  intros Hvalid. apply named_consequents in Hvalid.
  assert (Hnamed : Forall (λ rule, is_Some (consequent rule !! "livability"))
                          (rules self)).
  { eapply Forall_impl; [exact Hvalid|]. intros rule (term & -> & _). by eexists. }
  eexists _, _, _, _.
  repeat (split; [unfold get_rules_by_consequent;
                  by rewrite collect_consequent_from|]).
  clear Hnamed. induction Hvalid as [|rule l (term & Hterm & Hin) _ IH]; [done|].
  rewrite !filter_cons.
  set (P := filter (λ r, consequent r !! "livability" = Some "poor") l) in *.
  set (F := filter (λ r, consequent r !! "livability" = Some "fair") l) in *.
  set (G := filter (λ r, consequent r !! "livability" = Some "good") l) in *.
  set (E := filter (λ r, consequent r !! "livability" = Some "excellent") l)
    in *.
  unfold output_terms in Hin.
  repeat (apply elem_of_cons in Hin as [-> | Hin]);
    [| | | | by apply elem_of_nil in Hin];
    rewrite Hterm; repeat case_decide; try done.
  - cbn [app]. by constructor.
  - etrans; [symmetry; apply Permutation_middle|]. by constructor.
  - rewrite (app_assoc P F).
    etrans; [symmetry; apply Permutation_middle|].
    rewrite <- app_assoc. by constructor.
  - rewrite (app_assoc P F), (app_assoc (P ++ F) G).
    etrans; [symmetry; apply Permutation_middle|].
    rewrite <- !app_assoc. by constructor.
Qed.

Lemma consequents_partition_witness :
  ∃ poor fair good excellent,
    get_rules_by_consequent FuzzyRuleBase.__init__ "poor" = Returns poor
    ∧ get_rules_by_consequent FuzzyRuleBase.__init__ "fair" = Returns fair
    ∧ get_rules_by_consequent FuzzyRuleBase.__init__ "good" = Returns good
    ∧ get_rules_by_consequent FuzzyRuleBase.__init__ "excellent"
      = Returns excellent
    ∧ poor ++ fair ++ good ++ excellent ≡ₚ rules FuzzyRuleBase.__init__.
Proof. apply consequents_partition. vm_compute. reflexivity. Defined.

Lemma collect_variables (antecedents : list (string * string)) :
  ∀ (variables : gset string) var,
    var ∈ foldl (λ variables antecedent, {[antecedent.1]} ∪ variables)
                variables antecedents
    ↔ var ∈ variables ∨ ∃ term, (var, term) ∈ antecedents.
Proof.
  induction antecedents as [|[v t] rest IH]; intros variables var; cbn [foldl].
  - split; [by left|]. intros [Hin | [term Hin]]; [done|].
    by apply elem_of_nil in Hin.
  - rewrite IH, elem_of_union, elem_of_singleton. cbn [fst]. split.
    + intros [[-> | Hin] | [term Hin]].
      * right. exists t. left.
      * by left.
      * right. exists term. by right.
    + intros [Hin | [term Hin]]; [left; by right|].
      apply elem_of_cons in Hin as [[= -> ->] | Hin]; [left; by left|].
      right. by exists term.
Qed.

(** The first loop of [get_rule_statistics], from any counts and variables
    gathered so far. *)
Lemma count_rules_from (rules : list Rule) :
  ∀ (counts : gmap string nat) (variables : gset string),
    Forall (λ rule, is_Some (consequent rule !! "livability")) rules →
    ∃ counts' variables',
      foldl count_rule (Returns (counts, variables)) rules
      = Returns (counts', variables')
      ∧ (∀ term,
           counts' !! term
           = match filter (λ rule, consequent rule !! "livability" = Some term)
                          rules with
             | [] => counts !! term
             | found => Some (default 0 (counts !! term) + length found)%nat
             end)
      ∧ (∀ var, var ∈ variables'
                ↔ var ∈ variables
                  ∨ ∃ rule term, rule ∈ rules ∧ (var, term) ∈ antecedents rule).
Proof.
  induction rules as [|r l IH]; intros counts variables Hall.
  { exists counts, variables. split; [done|]. split; [done|].
    intros var. split; [by left|].
    intros [Hin | (rule & term & Hin & _)]; [done|].
    by apply elem_of_nil in Hin. }
  apply Forall_cons in Hall as [[t Ht] Hall].
  cbn [foldl]. unfold count_rule at 2. cbn [Py.bind]. unfold getitem.
  rewrite Ht. cbn [Py.bind].
  destruct (IH (<[t := (default 0 (counts !! t) + 1)%nat]> counts)
               (foldl (λ variables antecedent, {[antecedent.1]} ∪ variables)
                      variables (antecedents r)) Hall)
    as (counts' & variables' & Hrun & Hcounts & Hvars).
  exists counts', variables'. split; [exact Hrun|]. split.
  - intros term. rewrite Hcounts, filter_cons.
    destruct (decide (consequent r !! "livability" = Some term)) as [Heq | Hne].
    + assert (t = term) as -> by congruence. rewrite lookup_insert_eq.
      cbn [default from_option Datatypes.id].
      destruct (filter _ l); cbn [length]; f_equal; lia.
    + rewrite lookup_insert_ne by congruence. done.
  - intros var. rewrite Hvars, collect_variables. split.
    + intros [[Hin | [term Hin]] | (rule & term & Hin & Hant)].
      * by left.
      * right. exists r, term. split; [left | done].
      * right. exists rule, term. split; [by right | done].
    + intros [Hin | (rule & term & Hin & Hant)]; [left; by left|].
      apply elem_of_cons in Hin as [-> | Hin].
      * left. right. by exists term.
      * right. by exists rule, term.
Qed.

(** X7: when every rule names a consequent, [get_rule_statistics] returns;
    the total is the number of rules; a consequent term has a count exactly
    when some rule has it, and the count is the number of those rules; the
    variables used are exactly the antecedent variables of the rules. *)
Theorem get_rule_statistics_counts (self : FuzzyRuleBase.t) :
  Forall (λ rule, is_Some (consequent rule !! "livability")) (rules self) →
  ∃ stats,
    get_rule_statistics self = Returns stats
    ∧ total_rules stats = length (rules self)
    ∧ (∀ term n,
         rules_by_consequent stats !! term = Some n
         ↔ (0 < n)%nat
           ∧ get_rules_by_consequent self term
             = Returns (filter (λ rule, consequent rule !! "livability"
                                        = Some term) (rules self))
           ∧ n = length (filter (λ rule, consequent rule !! "livability"
                                         = Some term) (rules self)))
    ∧ (∀ var, var ∈ variables_used stats
              ↔ ∃ rule term, rule ∈ rules self
                             ∧ (var, term) ∈ antecedents rule).
Proof.
  intros Hall. unfold get_rule_statistics.
  destruct (count_rules_from (rules self) ∅ ∅ Hall)
    as (counts & variables & -> & Hcounts & Hvars).
  cbn [Py.bind]. eexists. split; [reflexivity|].
  cbn [total_rules rules_by_consequent variables_used]. split; [done|]. split.
  - intros term n. rewrite Hcounts, lookup_empty.
    unfold get_rules_by_consequent at 1.
    rewrite (collect_consequent_from term (rules self) [] Hall).
    cbn [app].
    destruct (filter _ (rules self)) as [|found rest].
    + split; [done|]. intros (Hpos & _ & ->). cbn in Hpos. lia.
    + cbn [default from_option Datatypes.id length]. split.
      * intros [= <-]. split; [lia|]. split; [done | lia].
      * intros (_ & _ & ->). f_equal.
  - intros var. rewrite Hvars. split.
    + intros [Hin | H]; [by apply elem_of_empty in Hin | done].
    + intros H. by right.
Qed.

Lemma get_rule_statistics_counts_witness :
  ∃ stats, get_rule_statistics FuzzyRuleBase.__init__ = Returns stats
    ∧ total_rules stats = 15%nat.
Proof.
  destruct (get_rule_statistics_counts FuzzyRuleBase.__init__)
    as (stats & Hstats & Htotal & _).
  - apply Forall_forall. intros rule Hin.
    repeat (apply elem_of_cons in Hin as [-> | Hin]; [by eexists|]).
    by apply elem_of_nil in Hin.
  - exists stats. split; [exact Hstats | exact Htotal].
Defined.

Lemma sum_weights_bounds (rules : list Rule) :
  forallb valid_rule rules = true → rules ≠ [] →
  0 < np.sum (weight <$> rules)
  ∧ np.sum (weight <$> rules) <= inject_Z (Z.of_nat (length rules)).
Proof.
  induction rules as [|r l IH]; intros Hvalid Hne; [done|].
  cbn [forallb] in Hvalid. apply andb_true_iff in Hvalid as [Hr Hvalid].
  unfold valid_rule in Hr. apply andb_true_iff in Hr as [Hr Hw1].
  apply andb_true_iff in Hr as [_ Hw0].
  apply Qltb_lt in Hw0. apply Qle_bool_iff in Hw1.
  change (np.sum (weight <$> r :: l)) with (weight r + np.sum (weight <$> l)).
  assert (Hlen : inject_Z (Z.of_nat (length (r :: l)))
                 == 1 + inject_Z (Z.of_nat (length l))).
  { cbn [length]. rewrite Nat2Z.inj_succ, <- Z.add_1_l, inject_Z_plus.
    reflexivity. }
  rewrite Hlen. destruct l as [|r' l'].
  - change (np.sum (weight <$> [])) with 0.
    change (inject_Z (Z.of_nat (length (@nil Rule)))) with 0. split; lra.
  - destruct (IH Hvalid) as [Hlo Hhi]; [done|]. split; lra.
Qed.

(** X8: the average weight reported by [get_rule_statistics] for a valid,
    non-empty rule base is the mean of the weights and lies in (0,1]; for
    an empty rule base it is not a number. *)
Theorem average_weight_bounds (self : FuzzyRuleBase.t) :
  forallb valid_rule (rules self) = true →
  ∃ stats,
    get_rule_statistics self = Returns stats
    ∧ average_weight stats = np.mean (weight <$> rules self)
    ∧ (rules self = [] → average_weight stats = None)
    ∧ (rules self ≠ [] →
       ∃ average, average_weight stats = Some average
                  ∧ 0 < average ∧ average <= 1).
Proof.
  intros Hvalid.
  assert (Hstats : ∃ stats, get_rule_statistics self = Returns stats).
  { unfold get_rule_statistics.
    destruct (count_rules_from (rules self) ∅ ∅)
      as (counts & variables & -> & _).
    - eapply Forall_impl; [by apply named_consequents|].
      intros rule (term & -> & _). by eexists.
    - cbn [Py.bind]. by eexists. }
  destruct Hstats as [stats Hstats].
  exists stats. split; [exact Hstats|].
  assert (Havg : average_weight stats = np.mean (weight <$> rules self)).
  { unfold get_rule_statistics in Hstats.
    destruct (foldl count_rule _ _) as [[counts variables]|e]; [|done].
    cbn [Py.bind] in Hstats. by injection Hstats as <-. }
  split; [exact Havg|]. rewrite Havg. split.
  - by intros ->.
  - intros Hne. destruct (sum_weights_bounds _ Hvalid Hne) as [Hlo Hhi].
    destruct (rules self) as [|r l] eqn:Hrules; [done|].
    eexists. split; [reflexivity|].
    assert (Hn : 0 < inject_Z (Z.of_nat (length (weight <$> r :: l)))).
    { rewrite length_fmap. cbn [length]. rewrite Nat2Z.inj_succ.
      change 0 with (inject_Z 0). rewrite <- Zlt_Qlt. lia. }
    rewrite length_fmap in Hn |- *. split.
    + apply Qlt_shift_div_l; [done | lra].
    + apply Qle_shift_div_r; [done | lra].
Qed.

Lemma average_weight_bounds_witness :
  ∃ stats average,
    get_rule_statistics FuzzyRuleBase.__init__ = Returns stats
    ∧ average_weight stats = Some average ∧ 0 < average ∧ average <= 1.
Proof.
  destruct (average_weight_bounds FuzzyRuleBase.__init__)
    as (stats & Hstats & _ & _ & Hbounds); [vm_compute; reflexivity|].
  destruct Hbounds as (average & Havg & Hlo & Hhi); [discriminate|].
  exists stats, average. split; [exact Hstats|]. split; [exact Havg|].
  split; [exact Hlo | exact Hhi].
Defined.

End RuleBaseQueries.

(** * Further properties of the engine *)

Section Engine.

(** X1: for every variable and value [fuzzify_value] returns one degree
    for each term that [get_all_membership_functions] gives for the
    variable and nothing else (nothing at all for a variable the model does
    not define), and [get_membership_function] is the lookup of the term in
    [get_all_membership_functions]. *)
Theorem fuzzify_value_terms (variable : string) (value : Q) :
  ∃ degrees,
    fuzzify_value variable value = Returns degrees
    ∧ dom degrees = dom (get_all_membership_functions variable)
    ∧ ∀ term, get_membership_function variable term
              = Returns (get_all_membership_functions variable !! term).
Proof.
  eexists. split; [apply fuzzify_value_spec|].
  unfold degrees_of, get_all_membership_functions, get_membership_function.
  destruct (membership_functions !! variable) as [terms|];
    cbn [default from_option Datatypes.id].
  - split; [apply dom_fmap_L | done].
  - split; [by rewrite !dom_empty_L | done].
Qed.

(** The stages of [compute_single_dwelling], with the score as the
    defuzzification of the aggregated levels. *)
Lemma compute_single_dwelling_stages (self : LiveabilityFuzzySystem.t)
    (features : gmap string Q) :
  valid_rule_base self = true →
  ∃ res, compute_single_dwelling self features = Returns res
    ∧ input_fuzzification res = fuzzified_of features
    ∧ activated_rules res
      = omap (reported (fuzzified_of features)) (get_rules (rule_base self))
    ∧ (∀ term, output_memberships res !! term
               = aggregated_level (fuzzified_of features) term
                   (get_rules (rule_base self)) <$> initial_aggregation !! term)
    ∧ _defuzzify_centroid (output_memberships res) = Returns (fli_score res)
    ∧ linguistic_label res = _get_linguistic_label (fli_score res).
Proof.
  intros Hvalid.
  destruct (compute_single_dwelling_spec self features Hvalid)
    as (res & Hres & Hfz & Hacts & Hagg & _ & Hlabel).
  exists res. split; [exact Hres|]. split; [exact Hfz|].
  split; [exact Hacts|]. split; [exact Hagg|]. split; [|exact Hlabel].
  unfold compute_single_dwelling in Hres.
  rewrite fuzzify_inputs_spec in Hres. cbn [Py.bind] in Hres.
  destruct (evaluate_rules _ _) as [[acts agg]|e]; [|done].
  cbn [Py.bind] in Hres.
  destruct (_defuzzify_centroid agg) as [score|e] eqn:Hscore; [|done].
  cbn [Py.bind] in Hres. injection Hres as <-. exact Hscore.
Qed.

Lemma fuzzified_of_insert_unknown (features : gmap string Q)
    (name : string) (value : Q) :
  membership_functions !! name = None →
  fuzzified_of (<[name := value]> features) = fuzzified_of features.
Proof.
  intros Hunknown. apply map_eq. intros var. rewrite !fuzzified_of_lookup.
  destruct (decide (name = var)) as [<- | Hne].
  - rewrite lookup_insert_eq. unfold degrees_of. rewrite Hunknown.
    by destruct (features !! name).
  - by rewrite lookup_insert_ne.
Qed.

(** X10: a feature whose name is not a variable of the model changes
    nothing: the record with it and the record without it (or with another
    value for it) get the same result, errors included. *)
Theorem unknown_features_ignored (self : LiveabilityFuzzySystem.t)
    (features : gmap string Q) (name : string) (value : Q) :
  membership_functions !! name = None →
  compute_single_dwelling self (<[name := value]> features)
  = compute_single_dwelling self features.
Proof.
  intros Hunknown. unfold compute_single_dwelling.
  rewrite !fuzzify_inputs_spec. by rewrite fuzzified_of_insert_unknown.
Qed.

Lemma unknown_features_ignored_witness :
  compute_single_dwelling __init__ (<["altitude" := 430]> example_dwelling)
  = compute_single_dwelling __init__ example_dwelling.
Proof. apply unknown_features_ignored. vm_compute. reflexivity. Defined.

(** X11: for every record the output memberships returned have exactly
    the four output terms as keys, and every level lies in [0,1]. *)
Theorem output_memberships_unit (self : LiveabilityFuzzySystem.t)
    (features : gmap string Q) :
  valid_rule_base self = true →
  ∃ res, compute_single_dwelling self features = Returns res
    ∧ (∀ term, is_Some (output_memberships res !! term)
               ↔ term ∈ output_terms)
    ∧ (∀ term level, output_memberships res !! term = Some level →
                     0 <= level ∧ level <= 1).
Proof.
  intros Hvalid.
  destruct (compute_single_dwelling_spec self features Hvalid)
    as (res & Hres & _ & _ & Hagg & _ & _).
  exists res. split; [exact Hres|]. split.
  - intros term. rewrite Hagg. split.
    + destruct (initial_aggregation !! term) as [a|] eqn:Hinit.
      * intros _. by apply initial_aggregation_lookup in Hinit as [? _].
      * by intros [? ?].
    + intros Hin. rewrite (initial_aggregation_keys term Hin). by eexists.
  - intros term level. rewrite Hagg.
    destruct (initial_aggregation !! term) as [a|] eqn:Hinit; [|done].
    apply initial_aggregation_lookup in Hinit as [_ ->]. intros [= <-].
    destruct (aggregated_level_attained (fuzzified_of features) term
                (get_rules (rule_base self)) 0.0)
      as [-> | (rule & Hin & _ & _ & ->)].
    + split; by vm_compute.
    + destruct (valid_rule_base_elem self rule Hvalid Hin) as (Hw0 & Hw1 & _).
      apply firing_strength_unit; [|lra|done].
      intros var degrees t d. apply fuzzified_of_unit.
Qed.

Lemma output_memberships_unit_witness :
  ∃ res, compute_single_dwelling __init__ example_dwelling = Returns res
    ∧ is_Some (output_memberships res !! "good").
Proof.
  destruct (output_memberships_unit __init__ example_dwelling)
    as (res & Hres & Hkeys & _); [vm_compute; reflexivity|].
  exists res. split; [exact Hres|]. apply Hkeys.
  unfold output_terms. right. right. left.
Defined.

(** X12: the fuzzified inputs returned hold exactly the features whose
    name is a variable of the model, each with the degrees [fuzzify_value]
    gives for the value in the record. *)
Theorem input_fuzzification_domain (self : LiveabilityFuzzySystem.t)
    (features : gmap string Q) :
  valid_rule_base self = true →
  ∃ res, compute_single_dwelling self features = Returns res
    ∧ (∀ var, is_Some (input_fuzzification res !! var)
              ↔ is_Some (features !! var)
                ∧ is_Some (membership_functions !! var))
    ∧ (∀ var degrees, input_fuzzification res !! var = Some degrees →
         ∃ value, features !! var = Some value
                  ∧ fuzzify_value var value = Returns degrees).
Proof.
  intros Hvalid.
  destruct (compute_single_dwelling_spec self features Hvalid)
    as (res & Hres & Hfz & _).
  exists res. split; [exact Hres|]. rewrite Hfz. split.
  - intros var. rewrite fuzzified_of_lookup. unfold degrees_of.
    destruct (features !! var) as [value|],
      (membership_functions !! var) as [terms|].
    + split; [intros _; split; by eexists | intros _; by eexists].
    + split; [by intros [? ?] | by intros [_ [? ?]]].
    + split; [by intros [? ?] | by intros [[? ?] _]].
    + split; [by intros [? ?] | by intros [[? ?] _]].
  - intros var degrees. rewrite fuzzified_of_lookup.
    destruct (features !! var) as [value|]; [|done].
    intros Hdeg. exists value. split; [done|].
    by rewrite fuzzify_value_spec, Hdeg.
Qed.

Lemma input_fuzzification_domain_witness :
  ∃ res, compute_single_dwelling __init__
           (<["altitude" := 430]> daylight_only) = Returns res
    ∧ is_Some (input_fuzzification res !! "daylight")
    ∧ ¬ is_Some (input_fuzzification res !! "altitude").
Proof.
  destruct (input_fuzzification_domain __init__
              (<["altitude" := 430]> daylight_only))
    as (res & Hres & Hdom & _); [vm_compute; reflexivity|].
  exists res. split; [exact Hres|]. split.
  - apply Hdom. split; eexists; vm_compute; reflexivity.
  - intros [_ [terms Hterms]]%Hdom. vm_compute in Hterms. discriminate Hterms.
Defined.

(** X9: a rule all of whose antecedents name a variable and term of the
    membership model is skipped for a record exactly when the record holds
    none of its antecedent variables; otherwise it fires, on as many degrees
    as it has antecedents whose variable is in the record. *)
Theorem rule_skipped_iff_no_variable (self : LiveabilityFuzzySystem.t)
    (features : gmap string Q) (rule : Rule) :
  valid_rule_base self = true → grounded_rule rule = true →
  ∃ res, compute_single_dwelling self features = Returns res
    ∧ length (activation_degrees (input_fuzzification res) rule)
      = length (filter (λ antecedent, is_Some (features !! antecedent.1))
                       (antecedents rule))
    ∧ (activation_degrees (input_fuzzification res) rule = []
       ↔ ∀ var term, (var, term) ∈ antecedents rule → features !! var = None).
Proof.
  intros Hvalid Hgrounded.
  destruct (compute_single_dwelling_spec self features Hvalid)
    as (res & Hres & Hfz & _).
  exists res. split; [exact Hres|]. rewrite Hfz.
  assert (Hlen : length (activation_degrees (fuzzified_of features) rule)
                 = length (filter (λ antecedent,
                                     is_Some (features !! antecedent.1))
                                  (antecedents rule))).
  { unfold activation_degrees, grounded_rule in *.
    induction (antecedents rule) as [|[var term] rest IH]; [done|].
    cbn [forallb fst snd] in Hgrounded.
    apply andb_true_iff in Hgrounded as [Hhere Hrest].
    change (omap ?f ((var, term) :: rest))
      with (match f (var, term) with
            | Some d => d :: omap f rest | None => omap f rest end).
    rewrite filter_cons. cbn [fst]. rewrite fuzzified_of_lookup.
    unfold degrees_of.
    destruct (membership_functions !! var) as [terms|]; [|done].
    apply bool_decide_eq_true in Hhere as [mf Hmf].
    destruct (features !! var) as [value|].
    - cbn. rewrite lookup_fmap, Hmf. cbn.
      destruct (decide _) as [_ | Hno]; [|exfalso; apply Hno; by eexists].
      cbn [length]. f_equal. by apply IH.
    - cbn. destruct (decide _) as [[? ?] | _]; [done|]. by apply IH. }
  split; [exact Hlen|]. split.
  - intros Hnone var term Hin. rewrite Hnone in Hlen. cbn [length] in Hlen.
    destruct (features !! var) as [value|] eqn:Hvalue; [|done]. exfalso.
    assert (Hmem : (var, term) ∈ filter (λ antecedent,
                     is_Some (features !! antecedent.1)) (antecedents rule)).
    { apply list_elem_of_filter. split; [|done]. cbn [fst]. by eexists. }
    destruct (filter _ (antecedents rule)); [by apply elem_of_nil in Hmem|].
    done.
  - intros Habsent.
    destruct (activation_degrees _ rule) as [|d ds] eqn:Hds; [done|].
    exfalso.
    destruct (filter _ (antecedents rule)) as [|[var term] rest] eqn:Hfilter;
      [done|].
    assert (Hmem : (var, term) ∈ filter (λ antecedent,
                     is_Some (features !! antecedent.1)) (antecedents rule))
      by (rewrite Hfilter; left).
    apply list_elem_of_filter in Hmem as [[value Hvalue] Hin].
    cbn [fst] in Hvalue. by rewrite (Habsent var term Hin) in Hvalue.
Qed.

Lemma rule_skipped_iff_no_variable_witness :
  valid_rule_base __init__ = true
  ∧ forallb grounded_rule (get_rules (rule_base __init__)) = true
  ∧ ∃ res, compute_single_dwelling __init__ daylight_only = Returns res
      ∧ length (activation_degrees (input_fuzzification res) bright_and_open)
        = 1%nat.
Proof.
  split; [vm_compute; reflexivity|]. split; [vm_compute; reflexivity|].
  destruct (rule_skipped_iff_no_variable __init__ daylight_only
              bright_and_open)
    as (res & Hres & Hlen & _); [vm_compute; reflexivity..|].
  exists res. split; [exact Hres|]. rewrite Hlen. vm_compute. reflexivity.
Defined.

(** X13: when no rule has a positive firing strength for a record, the
    record is scored exactly 50.0 and labelled "good", no rule is reported
    and every output level is zero; this holds also when rules fire, as
    long as they fire at strength 0. *)
Theorem zero_strength_default (self : LiveabilityFuzzySystem.t)
    (features : gmap string Q) :
  valid_rule_base self = true →
  (∀ rule, rule ∈ get_rules (rule_base self) →
           firing_strength (fuzzified_of features) rule <= 0) →
  ∃ res, compute_single_dwelling self features = Returns res
    ∧ fli_score res = 50.0 ∧ linguistic_label res = "good"
    ∧ activated_rules res = []
    ∧ ∀ term level, output_memberships res !! term = Some level → level == 0.
Proof.
  intros Hvalid Hzero.
  destruct (compute_single_dwelling_stages self features Hvalid)
    as (res & Hres & _ & Hacts & Hagg & Hscore & Hlabel).
  assert (Hlevels : ∀ term level,
            output_memberships res !! term = Some level → level == 0).
  { intros term level. rewrite Hagg.
    destruct (initial_aggregation !! term) as [a|] eqn:Hinit; [|done].
    apply initial_aggregation_lookup in Hinit as [_ ->]. intros [= <-].
    destruct (aggregated_level_attained (fuzzified_of features) term
                (get_rules (rule_base self)) 0.0)
      as [-> | (rule & Hin & _ & _ & ->)]; [reflexivity|].
    destruct (valid_rule_base_elem self rule Hvalid Hin) as (Hw0 & Hw1 & _).
    destruct (firing_strength_unit (fuzzified_of features) rule) as [Hlo _];
      [intros var degrees t d; apply fuzzified_of_unit | lra | done |].
    apply Qle_antisym; [by apply Hzero | done]. }
  destruct (_defuzzify_centroid_spec (output_memberships res))
    as (score & Hscore' & _ & Hdefault).
  { intros term a. rewrite Hagg.
    destruct (initial_aggregation !! term) as [a0|] eqn:Hinit; [|done].
    intros _. by apply initial_aggregation_lookup in Hinit as [? _]. }
  rewrite Hscore in Hscore'. injection Hscore' as <-.
  assert (Hfifty : fli_score res = 50.0).
  { apply Hdefault. intros term a Ha. rewrite (Hlevels term a Ha).
    apply Qle_refl. }
  exists res. split; [exact Hres|]. split; [exact Hfifty|].
  split; [by rewrite Hlabel, Hfifty|]. split; [|exact Hlevels].
  rewrite Hacts, reported_entries.
  assert (Hnone : ∀ rules,
            (∀ rule, rule ∈ rules →
                     firing_strength (fuzzified_of features) rule <= 0) →
            filter (significant_rule (fuzzified_of features)) rules = []).
  { clear. intros rules. induction rules as [|rule rules IH]; intros Hzero;
      [done|].
    rewrite filter_cons. destruct (decide _) as [Hsig | _].
    - unfold significant_rule in Hsig. apply Qltb_lt in Hsig.
      assert (firing_strength (fuzzified_of features) rule <= 0)
        by (apply Hzero; left). lra.
    - apply IH. intros r Hr. apply Hzero. by right. }
  by rewrite Hnone.
Qed.

Lemma zero_strength_default_witness :
  ∃ res, compute_single_dwelling __init__ greenery_only = Returns res
    ∧ fli_score res = 50.0 ∧ linguistic_label res = "good"
    ∧ fires (fuzzified_of greenery_only)
            (List.nth 9 _define_rules comfort_rule) = true.
Proof.
  destruct (zero_strength_default __init__ greenery_only)
    as (res & Hres & Hscore & Hlabel & _).
  - vm_compute. reflexivity.
  - intros rule Hin.
    repeat (apply elem_of_cons in Hin as [-> | Hin];
            [vm_compute; discriminate|]).
    by apply elem_of_nil in Hin.
  - exists res. split; [exact Hres|]. split; [exact Hscore|].
    split; [exact Hlabel|]. vm_compute. reflexivity.
Defined.

(** X14: the label is one of the four output terms and never gets worse
    as the score grows. *)
Theorem label_monotone (score1 score2 : Q) :
  score1 <= score2 →
  _get_linguistic_label score1 ∈ output_terms
  ∧ (label_rank (_get_linguistic_label score1)
     <= label_rank (_get_linguistic_label score2))%nat.
Proof.
  intros Hle. unfold _get_linguistic_label. split.
  - unfold output_terms.
    repeat (destruct (Qle_bool _ score1)); repeat constructor.
  - assert (R3 : label_rank "excellent" = 3%nat) by (vm_compute; reflexivity).
    assert (R2 : label_rank "good" = 2%nat) by (vm_compute; reflexivity).
    assert (R1 : label_rank "fair" = 1%nat) by (vm_compute; reflexivity).
    assert (R0 : label_rank "poor" = 0%nat) by (vm_compute; reflexivity).
    destruct (Qle_bool 65 score1) eqn:H1, (Qle_bool 45 score1) eqn:H2,
      (Qle_bool 25 score1) eqn:H3, (Qle_bool 65 score2) eqn:H4,
      (Qle_bool 45 score2) eqn:H5, (Qle_bool 25 score2) eqn:H6;
      rewrite ?R3, ?R2, ?R1, ?R0; try lia; exfalso;
      repeat match goal with
             | H : Qle_bool _ _ = true |- _ => apply Qle_bool_iff in H
             | H : Qle_bool _ _ = false |- _ => apply Qle_bool_false in H
             end; lra.
Qed.

Lemma label_monotone_witness :
  (label_rank (_get_linguistic_label 30)
   <= label_rank (_get_linguistic_label 70))%nat.
Proof.
  apply label_monotone. vm_compute. discriminate.
Defined.

End Engine.

(** * Further properties of batch scoring *)

Section BatchScoring.

(** The batch loop started from rows already produced equals the loop
    started from nothing, with its rows put after them. *)
Lemma score_rows_from (self : LiveabilityFuzzySystem.t)
    (mapping : list (string * string)) (df : DataFrame) :
  ∀ acc,
    foldl (score_row self mapping) acc df
    = let* produced := acc in
      let* results := foldl (score_row self mapping) (Returns []) df in
      Returns (produced ++ results).
Proof.
  induction df as [|[idx row] df IH]; intros acc.
  { destruct acc as [produced|e]; [|done]. cbn. by rewrite app_nil_r. }
  cbn [foldl]. rewrite IH. rewrite (IH (score_row _ _ (Returns []) _)).
  unfold score_row. destruct acc as [produced|e]; [|done]. cbn [Py.bind].
  destruct (compute_single_dwelling self _) as [res|e]; [|done].
  cbn [Py.bind app].
  destruct (foldl _ (Returns []) df) as [results|e]; [|done].
  cbn [Py.bind app]. by rewrite <- app_assoc.
Qed.

(** When the batch loop returns, it has produced one row per input row. *)
Lemma score_rows_length (self : LiveabilityFuzzySystem.t)
    (mapping : list (string * string)) (df : DataFrame) :
  ∀ results,
    foldl (score_row self mapping) (Returns []) df = Returns results →
    length results = length df.
Proof.
  induction df as [|[idx row] df IH] using rev_ind; intros results Hrun.
  { by injection Hrun as <-. }
  rewrite foldl_app in Hrun. cbn [foldl] in Hrun.
  destruct (foldl _ (Returns []) df) as [produced|e]; [|done].
  unfold score_row in Hrun. cbn [Py.bind] in Hrun.
  destruct (compute_single_dwelling self _) as [res|e]; [|done].
  cbn [Py.bind] in Hrun. injection Hrun as <-.
  rewrite !length_app. cbn [length]. by rewrite (IH produced).
Qed.

(** X16: scoring two frames that each have at least one row, one after
    the other, is scoring them as one: the batch of the concatenation is
    the concatenation of the two batches, and it fails exactly when one of
    them fails, with the error of the first that fails. *)
Theorem batch_concat (self : LiveabilityFuzzySystem.t) (df1 df2 : DataFrame)
    (feature_mapping : option (list (string * string))) :
  df1 ≠ [] → df2 ≠ [] →
  compute_batch self (df1 ++ df2) feature_mapping
  = let* results1 := compute_batch self df1 feature_mapping in
    let* results2 := compute_batch self df2 feature_mapping in
    Returns (results1 ++ results2).
Proof.
  intros Hrows1 Hrows2. unfold compute_batch.
  rewrite foldl_app, score_rows_from.
  pose proof (score_rows_length self
                (default default_feature_mapping feature_mapping) df1)
    as Hlen1.
  pose proof (score_rows_length self
                (default default_feature_mapping feature_mapping) df2)
    as Hlen2.
  destruct (foldl _ (Returns []) df1) as [results1|e]; [|done].
  specialize (Hlen1 results1 eq_refl).
  destruct results1 as [|out1 results1].
  { destruct df1; [by destruct Hrows1 | discriminate Hlen1]. }
  cbn [Py.bind].
  destruct (foldl _ (Returns []) df2) as [results2|e]; [|done].
  specialize (Hlen2 results2 eq_refl).
  destruct results2 as [|out2 results2].
  { destruct df2; [by destruct Hrows2 | discriminate Hlen2]. }
  reflexivity.
Qed.

Lemma batch_concat_witness :
  compute_batch __init__ (one_row ++ [(3%Z, unrelated_row)]) None
  = let* results1 := compute_batch __init__ one_row None in
    let* results2 := compute_batch __init__ [(3%Z, unrelated_row)] None in
    Returns (results1 ++ results2).
Proof.
  apply (batch_concat __init__ one_row [(3%Z, unrelated_row)] None);
    discriminate.
Defined.

(** X15: for a valid rule base the batch of a frame without rows fails
    with KeyError (the summary reads a column that the empty result frame
    lacks); the batch of any other frame returns one row per input row, in
    the same order and under the same index labels; every score lies in
    [0,100] and every label is the band of its score. *)
Theorem batch_rows_in_order (self : LiveabilityFuzzySystem.t) (df : DataFrame)
    (feature_mapping : option (list (string * string))) :
  valid_rule_base self = true →
  match df with
  | [] => compute_batch self df feature_mapping
          = Raises (KeyError "fli_score")
  | _ :: _ =>
      ∃ results,
        compute_batch self df feature_mapping = Returns results
        ∧ dwelling_id <$> results = fst <$> df
        ∧ Forall (λ out, 0 <= batch_fli_score out
                         ∧ batch_fli_score out <= 100
                         ∧ batch_linguistic_label out
                           = _get_linguistic_label (batch_fli_score out)
                         ∧ (num_activated_rules out
                            <= length (get_rules (rule_base self)))%nat)
                 results
  end.
Proof.
  intros Hvalid. destruct df as [|first df]; [reflexivity|].
  destruct (compute_batch_rows self (first :: df) feature_mapping Hvalid)
    as (results & Hrun & Hall); [discriminate|].
  exists results. split; [exact Hrun|]. clear Hrun.
  induction Hall
    as [|record out df' results (res & Hres & Hid & Hscore & Hlabel & Hnum)
         _ [IHids IHall]]; [by split|].
  split; [cbn [fmap list_fmap]; by rewrite Hid, IHids|].
  constructor; [|exact IHall].
  destruct (compute_single_dwelling_spec self
              (extract_features
                 (default default_feature_mapping feature_mapping) record.2)
              Hvalid)
    as (res' & Hres' & _ & Hacts & _ & [Hlo Hhi] & Hband).
  rewrite Hres in Hres'. injection Hres' as <-.
  rewrite Hscore, Hlabel, Hnum. split; [exact Hlo|]. split; [exact Hhi|].
  split; [exact Hband|].
  rewrite Hacts, reported_entries, length_fmap. apply length_filter.
Qed.

Lemma batch_rows_in_order_witness :
  ∃ results, compute_batch __init__ one_row None = Returns results
    ∧ dwelling_id <$> results = [7%Z].
Proof.
  destruct (batch_rows_in_order __init__ one_row None)
    as (results & Hrun & Hids & _); [vm_compute; reflexivity|].
  exists results. split; [exact Hrun | exact Hids].
Defined.

Lemma evaluate_rules_without_inputs (rules : list Rule) :
  evaluate_rules ∅ rules = Returns ([], initial_aggregation).
Proof.
  unfold evaluate_rules. induction rules as [|rule rules IH] using rev_ind;
    [done|].
  rewrite foldl_app. cbn [foldl]. rewrite IH. cbn [Py.bind].
  unfold apply_rule.
  assert (Hnone : activation_degrees ∅ rule = []); [|by rewrite Hnone].
  unfold activation_degrees.
  induction (antecedents rule) as [|[var term] rest IHa]; [done|].
  change (omap ?f ((var, term) :: rest))
    with (match f (var, term) with
          | Some d => d :: omap f rest | None => omap f rest end).
  cbn beta iota. rewrite lookup_empty. exact IHa.
Qed.

(** The empty record gets the default result from any engine. *)
Lemma compute_empty_record (self : LiveabilityFuzzySystem.t) :
  compute_single_dwelling self ∅ = Returns (default_result ∅).
Proof.
  unfold compute_single_dwelling. rewrite fuzzify_inputs_spec.
  cbn [Py.bind]. unfold fuzzified_of at 1 2. rewrite map_imap_empty.
  rewrite evaluate_rules_without_inputs. cbn [Py.bind].
  assert (Hscore : _defuzzify_centroid initial_aggregation = Returns 50.0)
    by (vm_compute; reflexivity).
  rewrite Hscore. cbn [Py.bind]. unfold default_result, fuzzified_of.
  by rewrite map_imap_empty.
Qed.

Lemma extract_features_fold (row : gmap string Q)
    (mapping : list (string * string)) :
  ∀ acc : gmap string Q,
    foldl (λ features '(dataset_col, fuzzy_var),
             match row !! dataset_col with
             | Some value =>
                 let value :=
                   if bool_decide (fuzzy_var = "daylight") && Qltb value 10
                   then value * 1000 else value in
                 <[fuzzy_var := value]> features
             | None => features
             end) acc mapping
    = foldl (λ features entry,
               match row !! entry.1 with
               | Some value => <[entry.2 := converted entry.2 value]> features
               | None => features
               end) acc mapping.
Proof.
  induction mapping as [|[col var] rest IH]; intros acc; [done|].
  cbn [foldl fst snd]. by rewrite IH.
Qed.

(** X17: a row that has none of the mapped columns is scored like the
    empty record: 50.0, "good", no activated rule, whatever else the row
    holds and whatever the rule base. *)
Theorem batch_row_without_columns (self : LiveabilityFuzzySystem.t)
    (idx : Z) (row : gmap string Q)
    (feature_mapping : option (list (string * string))) :
  (∀ dataset_col fuzzy_var,
     (dataset_col, fuzzy_var)
       ∈ default default_feature_mapping feature_mapping →
     row !! dataset_col = None) →
  compute_batch self [(idx, row)] feature_mapping
  = Returns [{| dwelling_id := idx; batch_fli_score := 50.0;
                batch_linguistic_label := "good";
                num_activated_rules := 0 |}].
Proof.
  intros Hnone. unfold compute_batch. cbn [foldl]. unfold score_row.
  cbn [Py.bind].
  assert (Hempty : extract_features
                     (default default_feature_mapping feature_mapping) row
                   = ∅).
  { unfold extract_features. rewrite extract_features_fold.
    induction (default default_feature_mapping feature_mapping)
      as [|[col var] rest IH]; [done|].
    cbn [foldl fst]. rewrite (Hnone col var) by left.
    apply IH. intros c v Hin. apply (Hnone c v). by right. }
  rewrite Hempty, compute_empty_record. done.
Qed.

Lemma batch_row_without_columns_witness :
  compute_batch __init__ [(3%Z, unrelated_row)] None
  = Returns [{| dwelling_id := 3; batch_fli_score := 50.0;
                batch_linguistic_label := "good";
                num_activated_rules := 0 |}].
Proof.
  apply batch_row_without_columns. intros col var Hin.
  cbn [default from_option Datatypes.id] in Hin.
  unfold default_feature_mapping in Hin.
  repeat (apply elem_of_cons in Hin as [[= -> ->] | Hin];
          [vm_compute; reflexivity|]).
  by apply elem_of_nil in Hin.
Defined.

Lemma extract_features_from (row : gmap string Q)
    (mapping : list (string * string)) :
  ∀ acc : gmap string Q,
    NoDup (snd <$> mapping) →
    (∀ dataset_col fuzzy_var, (dataset_col, fuzzy_var) ∈ mapping →
       foldl (λ features entry,
                match row !! entry.1 with
                | Some value => <[entry.2 := converted entry.2 value]> features
                | None => features
                end) acc mapping !! fuzzy_var
       = match row !! dataset_col with
         | Some value => Some (converted fuzzy_var value)
         | None => acc !! fuzzy_var
         end)
    ∧ (∀ fuzzy_var, fuzzy_var ∉ snd <$> mapping →
         foldl (λ features entry,
                  match row !! entry.1 with
                  | Some value =>
                      <[entry.2 := converted entry.2 value]> features
                  | None => features
                  end) acc mapping !! fuzzy_var
         = acc !! fuzzy_var).
Proof.
  induction mapping as [|[c v] rest IH]; intros acc Hdistinct.
  { split; [|done]. intros col var Hin. by apply elem_of_nil in Hin. }
  cbn [fmap list_fmap snd] in Hdistinct.
  apply NoDup_cons in Hdistinct as [Hfresh Hdistinct]. cbn [foldl fst snd].
  set (acc1 := match row !! c with
               | Some value => <[v := converted v value]> acc
               | None => acc
               end).
  destruct (IH acc1 Hdistinct) as [IHin IHout]. split.
  - intros col var Hin. apply elem_of_cons in Hin as [[= -> ->] | Hin].
    + rewrite (IHout v Hfresh). unfold acc1.
      destruct (row !! c); [by rewrite lookup_insert_eq | done].
    + rewrite (IHin col var Hin).
      assert (Hne : v ≠ var).
      { intros ->. apply Hfresh. apply list_elem_of_fmap.
        by exists (col, var). }
      destruct (row !! col); [done|]. unfold acc1.
      destruct (row !! c); [by rewrite lookup_insert_ne | done].
  - intros var Hout. cbn [fmap list_fmap snd] in Hout.
    apply not_elem_of_cons in Hout as [Hne Hout].
    rewrite (IHout var Hout). unfold acc1.
    destruct (row !! c); [by rewrite lookup_insert_ne | done].
Qed.

(** X18: under a column mapping whose fuzzy variables are pairwise
    distinct, the features extracted from a row hold, for each mapped
    column the row has, the cell under the mapped variable (daylight below
    10 times 1000, everything else unchanged), and nothing else: a mapped
    column the row lacks gives no feature, and no other variable appears. *)
Theorem extract_features_by_variable (mapping : list (string * string))
    (row : gmap string Q) :
  NoDup (snd <$> mapping) →
  (∀ dataset_col fuzzy_var, (dataset_col, fuzzy_var) ∈ mapping →
     extract_features mapping row !! fuzzy_var
     = converted fuzzy_var <$> row !! dataset_col)
  ∧ (∀ fuzzy_var, fuzzy_var ∉ snd <$> mapping →
       extract_features mapping row !! fuzzy_var = None).
Proof.
  intros Hdistinct. unfold extract_features. rewrite extract_features_fold.
  destruct (extract_features_from row mapping ∅ Hdistinct) as [Hin Hout].
  split.
  - intros col var Hmem. rewrite (Hin col var Hmem).
    destruct (row !! col); [done | apply lookup_empty].
  - intros var Hvar. rewrite (Hout var Hvar). apply lookup_empty.
Qed.

Lemma extract_features_by_variable_witness :
  extract_features default_feature_mapping
    (<["daylight_avg" := 0.35]> {[ "noise_lden" := 52 ]}) !! "daylight"
  = Some (converted "daylight" 0.35)
  ∧ extract_features default_feature_mapping
      (<["daylight_avg" := 0.35]> {[ "noise_lden" := 52 ]}) !! "view_sky"
    = None.
Proof.
  destruct (extract_features_by_variable default_feature_mapping
              (<["daylight_avg" := 0.35]> {[ "noise_lden" := 52 ]}))
    as [Hin _].
  - refine (bool_decide_unpack _ _). vm_compute. reflexivity.
  - split.
    + rewrite (Hin "daylight_avg" "daylight");
        [reflexivity | unfold default_feature_mapping; do 2 right; left].
    + rewrite (Hin "view_sky" "view_sky");
        [reflexivity | unfold default_feature_mapping; do 3 right; left].
Defined.

End BatchScoring.

(** * Further properties of the explanation *)

Section Explaining.

Lemma insert_desc_perm {A} (key : A → Q) (x : A) (l : list A) :
  insert_desc key x l ≡ₚ x :: l.
Proof.
  induction l as [|y l IH]; cbn [insert_desc]; [done|].
  destruct (Qle_bool (key y) (key x)); [done|].
  rewrite IH. apply Permutation_swap.
Qed.

Lemma sorted_reverse_perm {A} (key : A → Q) (l : list A) :
  sorted_reverse key l ≡ₚ l.
Proof.
  induction l as [|x l IH]; [done|].
  cbn [sorted_reverse foldr]. fold (sorted_reverse key l).
  by rewrite insert_desc_perm, IH.
Qed.

Lemma insert_desc_descending {A} (key : A → Q) (x : A) (l : list A) :
  StronglySorted (λ a b, key b <= key a) l →
  StronglySorted (λ a b, key b <= key a) (insert_desc key x l).
Proof.
  induction l as [|y l IH]; intros Hsorted; cbn [insert_desc].
  { repeat constructor. }
  apply StronglySorted_inv in Hsorted as [Hsorted Hy].
  destruct (Qle_bool (key y) (key x)) eqn:Hle.
  - apply Qle_bool_iff in Hle.
    constructor; [by constructor|]. constructor; [done|].
    rewrite Forall_forall in Hy |- *. intros z Hz.
    eapply Qle_trans; [by apply Hy | done].
  - apply Qle_bool_false in Hle.
    constructor; [by apply IH|].
    rewrite Forall_forall in Hy |- *. intros z Hz.
    apply insert_desc_elem in Hz as [-> | Hz];
      [by apply Qlt_le_weak | by apply Hy].
Qed.

Lemma sorted_reverse_descending {A} (key : A → Q) (l : list A) :
  StronglySorted (λ a b, key b <= key a) (sorted_reverse key l).
Proof.
  induction l as [|x l IH]; [constructor|].
  cbn [sorted_reverse foldr]. fold (sorted_reverse key l).
  by apply insert_desc_descending.
Qed.

(** X19: the explanation reports the score and label of
    [compute_single_dwelling] for the same record; the rules it lists are
    activated rules, as many as top-N allows (all but the last |N| for a
    negative N); when N is at least the number of activated rules, the list
    is a rearrangement of all of them. *)
Theorem explanation_lists_activated (self : LiveabilityFuzzySystem.t)
    (features : gmap string Q) (top_n_rules : Z) :
  valid_rule_base self = true →
  ∃ res explanation,
    compute_single_dwelling self features = Returns res
    ∧ explain_dwelling self features top_n_rules = Returns explanation
    ∧ explained_score explanation = fli_score res
    ∧ explained_label explanation = linguistic_label res
    ∧ (∀ entry, entry ∈ listed_rules explanation →
                entry ∈ activated_rules res)
    ∧ length (listed_rules explanation)
      = (if (0 <=? top_n_rules)%Z
         then Z.to_nat top_n_rules `min` length (activated_rules res)
         else length (activated_rules res) - Z.to_nat (- top_n_rules))%nat
    ∧ ((Z.of_nat (length (activated_rules res)) <= top_n_rules)%Z →
       listed_rules explanation ≡ₚ activated_rules res).
Proof.
  intros Hvalid.
  destruct (compute_single_dwelling_spec self features Hvalid)
    as (res & Hres & _).
  exists res. eexists. split; [exact Hres|].
  unfold explain_dwelling. rewrite Hres. cbn [Py.bind].
  split; [reflexivity|].
  cbn [explained_score explained_label listed_rules].
  split; [done|]. split; [done|].
  pose proof (sorted_reverse_perm activation (activated_rules res)) as Hperm.
  assert (Hlen := Permutation_length Hperm).
  split; [|split].
  - intros entry Hin. apply (sorted_reverse_elem activation).
    eapply elem_of_sublist; [exact Hin | apply slice_to_sublist].
  - unfold slice_to. destruct (0 <=? top_n_rules)%Z.
    + rewrite length_take. lia.
    + rewrite length_take. lia.
  - intros Hall. unfold slice_to.
    destruct (0 <=? top_n_rules)%Z eqn:Hsign; [|apply Z.leb_gt in Hsign; lia].
    rewrite take_ge by lia. exact Hperm.
Qed.

Lemma explanation_lists_activated_witness :
  ∃ res explanation,
    compute_single_dwelling __init__ example_dwelling = Returns res
    ∧ explain_dwelling __init__ example_dwelling 1 = Returns explanation
    ∧ length (listed_rules explanation)
      = (1 `min` length (activated_rules res))%nat.
Proof.
  destruct (explanation_lists_activated __init__ example_dwelling 1)
    as (res & explanation & Hres & Hex & _ & _ & _ & Hlen & _);
    [vm_compute; reflexivity|].
  exists res, explanation. split; [exact Hres|]. split; [exact Hex|].
  exact Hlen.
Defined.

(** X20: when the explanation lists any rule, the first one listed has the
    greatest activation of all activated rules. *)
Theorem explanation_strongest_first (self : LiveabilityFuzzySystem.t)
    (features : gmap string Q) (top_n_rules : Z) :
  valid_rule_base self = true →
  ∃ res explanation,
    compute_single_dwelling self features = Returns res
    ∧ explain_dwelling self features top_n_rules = Returns explanation
    ∧ match listed_rules explanation with
      | first :: _ =>
          first ∈ activated_rules res
          ∧ ∀ entry, entry ∈ activated_rules res →
                     activation entry <= activation first
      | [] => True
      end.
Proof.
  intros Hvalid.
  destruct (compute_single_dwelling_spec self features Hvalid)
    as (res & Hres & _).
  exists res. eexists. split; [exact Hres|].
  unfold explain_dwelling. rewrite Hres. cbn [Py.bind].
  split; [reflexivity|]. cbn [listed_rules].
  pose proof (sorted_reverse_descending activation (activated_rules res))
    as Hdesc.
  pose proof (sorted_reverse_elem activation (activated_rules res)) as Helem.
  destruct (sorted_reverse activation (activated_rules res))
    as [|first rest] eqn:Hsorted.
  { unfold slice_to. destruct (0 <=? top_n_rules)%Z; by rewrite take_nil. }
  assert (Hhead : ∀ n, match take n (first :: rest) with
                       | x :: _ => x = first | [] => True end)
    by (intros [|n]; done).
  unfold slice_to.
  destruct (0 <=? top_n_rules)%Z;
    (match goal with |- context [take ?n _] => specialize (Hhead n) end;
     destruct (take _ (first :: rest)) as [|x xs]; [done|]; subst x;
     split; [apply Helem; left|];
     intros entry [-> | Hin]%Helem%elem_of_cons; [apply Qle_refl|];
     apply StronglySorted_inv in Hdesc as [_ Hall];
     rewrite Forall_forall in Hall; by apply Hall).
Qed.

Lemma explanation_strongest_first_witness :
  ∃ res explanation,
    compute_single_dwelling __init__ example_dwelling = Returns res
    ∧ explain_dwelling __init__ example_dwelling 3 = Returns explanation.
Proof.
  destruct (explanation_strongest_first __init__ example_dwelling 3)
    as (res & explanation & Hres & Hex & _); [vm_compute; reflexivity|].
  exists res, explanation. split; [exact Hres | exact Hex].
Defined.

End Explaining.

(** * Properties of the web interface *)

Section WebInterface.

(** X21: for any six readings [compute_single_dwelling_fli] returns, and
    what it returns is the score [compute_single_dwelling] gives to the
    record built from them, with daylight taken times 1000; it lies in
    [0,100]. *)
Theorem web_score_in_range
    (noise_lden noise_lnight daylight view_sky view_greenery poi_count : Q) :
  ∃ res,
    compute_single_dwelling web_app.fuzzy_system
      (web_app.fli_features noise_lden noise_lnight daylight view_sky
                            view_greenery poi_count) = Returns res
    ∧ web_app.fli_features noise_lden noise_lnight daylight view_sky
        view_greenery poi_count !! "daylight" = Some (daylight * 1000)
    ∧ web_app.compute_single_dwelling_fli noise_lden noise_lnight daylight
        view_sky view_greenery poi_count = Returns (fli_score res)
    ∧ 0 <= fli_score res ∧ fli_score res <= 100.
Proof.
  destruct (compute_single_dwelling_spec web_app.fuzzy_system
              (web_app.fli_features noise_lden noise_lnight daylight view_sky
                                    view_greenery poi_count))
    as (res & Hres & _ & _ & _ & [Hlo Hhi] & _); [vm_compute; reflexivity|].
  exists res. split; [exact Hres|]. split.
  { unfold web_app.fli_features.
    do 3 (rewrite lookup_insert_ne; [|discriminate]). apply lookup_insert_eq. }
  split; [|split; [exact Hlo | exact Hhi]].
  unfold web_app.compute_single_dwelling_fli. by rewrite Hres.
Qed.

(** X22: a batch row that holds the six default columns with a daylight
    cell below 10 gets from [compute_batch] the score that
    [compute_single_dwelling_fli] gives to the same six readings: both
    paths take daylight times 1000. *)
Theorem web_agrees_with_batch (idx : Z) (row : gmap string Q)
    (noise_lden noise_lnight daylight view_sky view_greenery poi_count : Q) :
  row !! "noise_lden" = Some noise_lden →
  row !! "noise_lnight" = Some noise_lnight →
  row !! "daylight_avg" = Some daylight →
  row !! "view_sky" = Some view_sky →
  row !! "view_greenery" = Some view_greenery →
  row !! "location_poi_count" = Some poi_count →
  daylight < 10 →
  ∃ score label count,
    web_app.compute_single_dwelling_fli noise_lden noise_lnight daylight
      view_sky view_greenery poi_count = Returns score
    ∧ compute_batch web_app.fuzzy_system [(idx, row)] None
      = Returns [{| dwelling_id := idx; batch_fli_score := score;
                    batch_linguistic_label := label;
                    num_activated_rules := count |}].
Proof.
  intros H1 H2 H3 H4 H5 H6 Hsmall.
  assert (Hfeatures :
            extract_features default_feature_mapping row
            = web_app.fli_features noise_lden noise_lnight daylight view_sky
                                   view_greenery poi_count).
  { unfold extract_features, default_feature_mapping, web_app.fli_features.
    cbn [foldl]. rewrite H1, H2, H3, H4, H5, H6.
    apply Qltb_lt in Hsmall. rewrite Hsmall.
    rewrite (bool_decide_eq_true_2 ("daylight" = "daylight")) by done.
    by rewrite !bool_decide_eq_false_2 by done. }
  destruct (compute_single_dwelling_spec web_app.fuzzy_system
              (web_app.fli_features noise_lden noise_lnight daylight view_sky
                                    view_greenery poi_count))
    as (res & Hres & _); [vm_compute; reflexivity|].
  exists (fli_score res), (linguistic_label res),
    (length (activated_rules res)).
  split.
  - unfold web_app.compute_single_dwelling_fli. by rewrite Hres.
  - unfold compute_batch. cbn [foldl default from_option Datatypes.id].
    unfold score_row. cbn [Py.bind]. rewrite Hfeatures, Hres. done.
Qed.

Lemma web_agrees_with_batch_witness :
  ∃ score label count,
    web_app.compute_single_dwelling_fli 52 43 0.35 2.5 0.8 35 = Returns score
    ∧ compute_batch web_app.fuzzy_system
        [(7%Z, <["location_poi_count" := 35]> (<["view_greenery" := 0.8]>
                 (<["view_sky" := 2.5]> (<["daylight_avg" := 0.35]>
                   (<["noise_lnight" := 43]> {[ "noise_lden" := 52 ]})))))]
        None
      = Returns [{| dwelling_id := 7; batch_fli_score := score;
                    batch_linguistic_label := label;
                    num_activated_rules := count |}].
Proof.
  apply web_agrees_with_batch; vm_compute; reflexivity.
Defined.

(** X23: the label shown by the assessment endpoint is the engine's label
    for the same score, with a capital first letter. *)
Theorem web_label_agrees (fli_score : Q) :
  (web_app.assess_label fli_score).1
  = capitalized (_get_linguistic_label fli_score).
Proof.
  unfold web_app.assess_label, _get_linguistic_label.
  by repeat destruct (Qle_bool _ fli_score).
Qed.

(** X24: for assessments that hold the four keys read,
    [get_recommendations] returns at most five lines; a score of 65 or more
    ends the list with the line on excellent livability, a score below 35
    ends it with the line on significant improvements (this includes the
    scores from 25 to 35, which are labelled "Fair"), and a score from 35 up
    to 65 adds neither. *)
Theorem recommendations_closing_line (fli_score : Q)
    (assessments : gmap string string) :
  is_Some (assessments !! "noise") → is_Some (assessments !! "daylight") →
  is_Some (assessments !! "view_sky") →
  is_Some (assessments !! "view_greenery") →
  ∃ advice,
    web_app.get_recommendations fli_score assessments = Returns advice
    ∧ (length advice <= 5)%nat
    ∧ (65 <= fli_score → List.last advice "" = web_app.advice_excellent)
    ∧ (fli_score < 35 → List.last advice "" = web_app.advice_improve)
    ∧ (35 <= fli_score → fli_score < 65 →
       (web_app.advice_excellent ∉ advice)
       ∧ (web_app.advice_improve ∉ advice)).
Proof.
  intros [noise Hn] [daylight Hd] [sky Hs] [green Hg].
  unfold web_app.get_recommendations, getitem.
  rewrite Hn, Hd, Hs, Hg. cbn [Py.bind].
  destruct (Qle_bool 65 fli_score) eqn:Hhigh;
    [|destruct (Qltb fli_score 35) eqn:Hlow];
    destruct (bool_decide (noise = "Noisy")),
      (bool_decide (daylight = "Low")), (bool_decide (sky = "Limited")),
      (bool_decide (green = "Limited"));
    (eexists; split; [reflexivity|]);
    (split; [cbn; lia|]);
    repeat match goal with
           | H : Qle_bool _ _ = true |- _ => apply Qle_bool_iff in H
           | H : Qle_bool _ _ = false |- _ => apply Qle_bool_false in H
           | H : Qltb _ _ = true |- _ => apply Qltb_lt in H
           | H : Qltb _ _ = false |- _ => apply Qltb_ge in H
           end;
    (split; [intros ?; first [reflexivity | lra]|]);
    (split; [intros ?; first [reflexivity | lra]|]);
    intros ? ?; first [lra | split; intros Hin;
      repeat (apply elem_of_cons in Hin as [Hin | Hin]; [discriminate Hin|]);
      by apply elem_of_nil in Hin].
Qed.

Lemma recommendations_closing_line_witness :
  ∃ advice,
    web_app.get_recommendations 30
      (web_app.feature_assessments 70 50 0.2 0.1 20) = Returns advice
    ∧ List.last advice "" = web_app.advice_improve.
Proof.
  destruct (recommendations_closing_line 30
              (web_app.feature_assessments 70 50 0.2 0.1 20))
    as (advice & Hadvice & _ & _ & Hlow & _);
    [eexists; vm_compute; reflexivity..|].
  exists advice. split; [exact Hadvice|]. apply Hlow. vm_compute. reflexivity.
Defined.

(** X25: the details endpoint never answers with a score: the engine has
    no attribute [compute_fli], so the answer is 500 when no data is loaded
    and 404 otherwise, whatever the data and the building asked for. *)
Theorem details_never_succeed
    (call : string → gmap string Q → web_app.failure + Q)
    (df : option (list (string * gmap string Q))) (building_id : string) :
  web_app.get_dwelling_details call df building_id
  = (match df with None => 500%nat | Some _ => 404%nat end, None).
Proof.
  unfold web_app.get_dwelling_details. destruct df as [df|]; [|done].
  destruct (filter _ df) as [|dwelling rest]; [done|].
  unfold web_app.call_engine.
  assert (Hmissing : bool_decide ("compute_fli" ∈ web_app.engine_attributes)
                     = false) by (vm_compute; reflexivity).
  by rewrite Hmissing.
Qed.

End WebInterface.

(** * Properties of the sensitivity analysis *)

Section Sensitivity.

Lemma linspace_length (start stop : Q) (num : Z) :
  (0 <= num)%Z →
  ∃ values, np.linspace start stop num = Returns values
    ∧ length values = Z.to_nat num
    ∧ ((2 <= num)%Z → List.last values 0 = stop).
Proof.
  intros Hnum. unfold np.linspace.
  destruct (num <? 0)%Z eqn:Hneg; [apply Z.ltb_lt in Hneg; lia|].
  eexists. split; [reflexivity|].
  destruct (1 <? num)%Z eqn:Hmany.
  - split; [by rewrite length_insert, length_fmap, length_seq|].
    intros _. apply Z.ltb_lt in Hmany.
    set (y := _ <$> seq 0 (Z.to_nat num)).
    assert (Hlen : length y = Z.to_nat num)
      by (unfold y; by rewrite length_fmap, length_seq).
    rewrite <- Hlen.
    clearbody y. destruct y as [|y0 ys _] using rev_ind; [cbn in Hlen; lia|].
    rewrite length_app. cbn [length].
    replace (length ys + 1 - 1)%nat with (length ys + 0)%nat by lia.
    rewrite insert_app_r. cbn [insert list_insert]. apply last_last.
  - split; [by rewrite length_fmap, length_seq|].
    apply Z.ltb_ge in Hmany. lia.
Qed.

(** The loop over the values, from any rows already produced. *)
Lemma vary_from (fis : LiveabilityFuzzySystem.t)
    (base_features : gmap string Q) (variable : string) (values : list Q) :
  valid_rule_base fis = true →
  ∀ produced, ∃ rows,
    foldl (validation.vary fis base_features variable) (Returns produced)
          values = Returns (produced ++ rows)
    ∧ Forall2 (λ value row,
                 ∃ res,
                   compute_single_dwelling fis
                     (<[variable := value]> base_features) = Returns res
                   ∧ row = validation.sensitivity_row variable value res
                   ∧ 0 <= fli_score res ∧ fli_score res <= 100)
              values rows.
Proof.
  intros Hvalid. induction values as [|value values IH]; intros produced.
  { exists []. split; [by rewrite app_nil_r | constructor]. }
  destruct (compute_single_dwelling_spec fis
              (<[variable := value]> base_features) Hvalid)
    as (res & Hres & _ & _ & _ & [Hlo Hhi] & _).
  destruct (IH (produced ++ [validation.sensitivity_row variable value res]))
    as (rows & Hrun & Hall).
  eexists (_ :: rows). split.
  - cbn [foldl]. unfold validation.vary at 2. cbn [Py.bind]. rewrite Hres.
    cbn [Py.bind]. rewrite Hrun. by rewrite <- app_assoc.
  - constructor; [|exact Hall]. by exists res.
Qed.

(** X26: for a valid rule base and at least one step, the sensitivity
    analysis returns one row per value of the range, in order; each row
    holds the value and the score and label that [compute_single_dwelling]
    gives to the base record with the variable set to that value; with two
    steps or more the last value is the upper end of the range. *)
Theorem sensitivity_rows (fis : LiveabilityFuzzySystem.t)
    (base_features : gmap string Q) (variable : string)
    (value_range : Q * Q) (n_steps : Z) :
  valid_rule_base fis = true → (1 <= n_steps)%Z →
  ∃ values rows,
    np.linspace value_range.1 value_range.2 n_steps = Returns values
    ∧ validation.perform_sensitivity_analysis fis base_features variable
        value_range n_steps = Returns rows
    ∧ length rows = Z.to_nat n_steps
    ∧ ((2 <= n_steps)%Z → List.last values 0 = value_range.2)
    ∧ Forall2 (λ value row,
                 ∃ res,
                   compute_single_dwelling fis
                     (<[variable := value]> base_features) = Returns res
                   ∧ row = validation.sensitivity_row variable value res
                   ∧ 0 <= fli_score res ∧ fli_score res <= 100)
              values rows.
Proof.
  intros Hvalid Hsteps.
  destruct (linspace_length value_range.1 value_range.2 n_steps)
    as (values & Hvalues & Hlen & Hlast); [lia|].
  destruct (vary_from fis base_features variable values Hvalid [])
    as (rows & Hrun & Hall).
  exists values, rows. split; [exact Hvalues|].
  assert (Hrows : length rows = Z.to_nat n_steps)
    by (rewrite <- Hlen; symmetry; by eapply Forall2_length).
  split; [|split; [exact Hrows | split; [exact Hlast | exact Hall]]].
  unfold validation.perform_sensitivity_analysis. rewrite Hvalues.
  cbn [Py.bind]. rewrite Hrun. cbn [Py.bind app].
  destruct rows; [cbn in Hrows; lia | done].
Qed.

Lemma sensitivity_rows_witness :
  ∃ rows,
    validation.perform_sensitivity_analysis __init__ example_dwelling
      "noise_lden" (40, 80) 3 = Returns rows
    ∧ length rows = 3%nat.
Proof.
  destruct (sensitivity_rows __init__ example_dwelling "noise_lden" (40, 80) 3)
    as (values & rows & _ & Hrows & Hlen & _); [vm_compute; reflexivity | lia|].
  exists rows. split; [exact Hrows | exact Hlen].
Defined.

(** X27: varying a variable that the model does not define changes
    nothing: every row carries the score and the label of the base record. *)
Theorem sensitivity_unknown_variable (fis : LiveabilityFuzzySystem.t)
    (base_features : gmap string Q) (variable : string)
    (value_range : Q * Q) (n_steps : Z) :
  valid_rule_base fis = true → (1 <= n_steps)%Z →
  membership_functions !! variable = None →
  ∃ res rows,
    compute_single_dwelling fis base_features = Returns res
    ∧ validation.perform_sensitivity_analysis fis base_features variable
        value_range n_steps = Returns rows
    ∧ length rows = Z.to_nat n_steps
    ∧ Forall (λ row,
                row !! "fli_score" = Some (validation.Num (fli_score res))
                ∧ row !! "linguistic_label"
                  = Some (validation.Str (linguistic_label res)))
             rows.
Proof.
  intros Hvalid Hsteps Hunknown.
  destruct (compute_single_dwelling_spec fis base_features Hvalid)
    as (res & Hres & _).
  destruct (linspace_length value_range.1 value_range.2 n_steps)
    as (values & Hvalues & Hlen & _); [lia|].
  destruct (vary_from fis base_features variable values Hvalid [])
    as (rows & Hrun & Hall).
  exists res, rows. split; [exact Hres|].
  assert (Hrows : length rows = Z.to_nat n_steps)
    by (rewrite <- Hlen; symmetry; by eapply Forall2_length).
  split; [|split; [exact Hrows|]].
  - unfold validation.perform_sensitivity_analysis. rewrite Hvalues.
    cbn [Py.bind]. rewrite Hrun. cbn [Py.bind app].
    destruct rows; [cbn in Hrows; lia | done].
  - clear Hrun Hlen Hvalues Hrows.
    induction Hall as [|value row values rows (res' & Hres' & -> & _) _ IH];
      constructor; [|exact IH].
    assert (Hsame : compute_single_dwelling fis
                      (<[variable := value]> base_features)
                    = compute_single_dwelling fis base_features).
    { unfold compute_single_dwelling. rewrite !fuzzify_inputs_spec.
      by rewrite fuzzified_of_insert_unknown. }
    rewrite Hsame, Hres in Hres'. injection Hres' as <-.
    unfold validation.sensitivity_row. split.
    + rewrite lookup_insert_ne by discriminate. apply lookup_insert_eq.
    + apply lookup_insert_eq.
Qed.

Lemma sensitivity_unknown_variable_witness :
  ∃ res rows,
    compute_single_dwelling __init__ example_dwelling = Returns res
    ∧ validation.perform_sensitivity_analysis __init__ example_dwelling
        "altitude" (300, 900) 4 = Returns rows
    ∧ length rows = 4%nat.
Proof.
  destruct (sensitivity_unknown_variable __init__ example_dwelling
              "altitude" (300, 900) 4)
    as (res & rows & Hres & Hrows & Hlen & _);
    [vm_compute; reflexivity | lia | vm_compute; reflexivity|].
  exists res, rows. split; [exact Hres|]. split; [exact Hrows | exact Hlen].
Defined.

(** X28: with no step the analysis fails: a negative number of steps is a
    ValueError of the range construction, and zero steps give an empty
    frame whose score column the final summary cannot read (KeyError). *)
Theorem sensitivity_without_steps (fis : LiveabilityFuzzySystem.t)
    (base_features : gmap string Q) (variable : string)
    (value_range : Q * Q) (n_steps : Z) :
  (n_steps <= 0)%Z →
  validation.perform_sensitivity_analysis fis base_features variable
    value_range n_steps
  = Raises (if (n_steps <? 0)%Z then ValueError else KeyError "fli_score").
Proof.
  intros Hsteps. unfold validation.perform_sensitivity_analysis, np.linspace.
  destruct (n_steps <? 0)%Z eqn:Hneg; [done|].
  apply Z.ltb_ge in Hneg. assert (n_steps = 0%Z) as -> by lia. done.
Qed.

Lemma sensitivity_without_steps_witness :
  validation.perform_sensitivity_analysis __init__ example_dwelling
    "noise_lden" (40, 80) 0 = Raises (KeyError "fli_score")
  ∧ validation.perform_sensitivity_analysis __init__ example_dwelling
      "noise_lden" (40, 80) (-2) = Raises ValueError.
Proof.
  split.
  - apply (sensitivity_without_steps __init__ example_dwelling "noise_lden"
             (40, 80) 0). lia.
  - apply (sensitivity_without_steps __init__ example_dwelling "noise_lden"
             (40, 80) (-2)). lia.
Defined.

End Sensitivity.
